(** * AutoIntel Robotics: the simulation core

    A shallow embedding of the simulation lab of the application:
    - the joint dynamics integrator of [App.tsx] (the "Simulation Physics
      Loop" effect and the "Reset Vectors" button);
    - the weld-spatter particle pool of [components/Robot3DViewer.tsx]
      (the "Spatter Update" block of [animate]);
    - the health overlay ([analyzeAll] in the viewer, and
      [analyzeTelemetryHealth] of [services/geminiService.ts]).

    Numbers.  A JavaScript number is an IEEE-754 double.  Finite doubles
    are idealised as real numbers ([R]): no rounding, no overflow.  Where
    the source can meet [NaN] ([parseInt], a read outside a typed array)
    the embedding says so with an [option]: [None] is [NaN].  Values
    written to a [Float32Array] go through [fround], the rounding to
    single precision, which is left arbitrary.

    Strings are sequences of 8-bit code units. *)

From Stdlib Require Import Reals Lra ZArith Lia String Ascii Bool.
From stdpp Require Import gmap strings list pretty.

Local Open Scope R_scope.

(* ================================================================== *)
(** * Part I: definitions                                              *)
(* ================================================================== *)

(** ** JavaScript string built-ins used by the integrator *)

(** [String.prototype.includes]: is [needle] a substring of [s]? *)
Fixpoint includes (needle s : string) : bool :=
  if String.prefix needle s then true
  else match s with
       | EmptyString => false
       | String _ s' => includes needle s'
       end.

(** White space skipped by [parseInt] (TrimString, start): TAB, LF, VT,
    FF, CR, SP and NBSP. *)
Definition isWhiteSpace (c : ascii) : bool :=
  let n := nat_of_ascii c in
  ((9 <=? n) && (n <=? 13) || (n =? 32) || (n =? 160))%nat.

Fixpoint trimStart (s : string) : string :=
  match s with
  | String c s' => if isWhiteSpace c then trimStart s' else s
  | EmptyString => EmptyString
  end.

(** The value of [c] as a digit of the given radix (10 or 16). *)
Definition digitValue (radix : Z) (c : ascii) : option Z :=
  let n := Z.of_nat (nat_of_ascii c) in
  let v := if ((48 <=? n) && (n <=? 57))%Z then Some (n - 48)%Z
           else if ((97 <=? n) && (n <=? 122))%Z then Some (n - 87)%Z
           else if ((65 <=? n) && (n <=? 90))%Z then Some (n - 55)%Z
           else None in
  match v with
  | Some d => if (d <? radix)%Z then Some d else None
  | None => None
  end.

(** The longest prefix of [s] made of digits, read as an integer;
    [acc] is the value of the digits read so far, [None] while no digit
    has been read. *)
Fixpoint parseDigits (radix : Z) (acc : option Z) (s : string) : option Z :=
  match s with
  | EmptyString => acc
  | String c s' =>
      match digitValue radix c with
      | Some d => parseDigits radix (Some (default 0 acc * radix + d)%Z) s'
      | None => acc
      end
  end.

(** [parseInt(s)] with no radix argument.  [None] is [NaN]. *)
Definition parseInt (s : string) : option Z :=
  let s := trimStart s in
  let (sign, s) :=
    match s with
    | String "-" s' => ((-1)%Z, s')
    | String "+" s' => (1%Z, s')
    | _ => (1%Z, s)
    end in
  let (radix, s) :=
    match s with
    | String "0" (String "x" s') => (16%Z, s')
    | String "0" (String "X" s') => (16%Z, s')
    | _ => (10%Z, s)
    end in
  match parseDigits radix None s with
  | Some n => Some (sign * n)%Z
  | None => None
  end.

(** ** Data model ([types.ts], [constants.tsx]) *)

Inductive Page :=
  | Home | Textbook | Insights | Lab | Search | Simulation
  | Diagnostics | Energy | Connectivity.

Definition Page_eqb (p q : Page) : bool :=
  match p, q with
  | Home, Home | Textbook, Textbook | Insights, Insights | Lab, Lab
  | Search, Search | Simulation, Simulation | Diagnostics, Diagnostics
  | Energy, Energy | Connectivity, Connectivity => true
  | _, _ => false
  end.

Record RoboticComponent := mkComponent {
  name : string;
  type : string;
  spec : string;
  icon : string
}.

(** The entries of the inventory. *)
Definition jetsonOrin : RoboticComponent :=
  mkComponent "NVIDIA Jetson AGX Orin" "Compute" "275 TOPS" "Cpu".
Definition torqueMotor : RoboticComponent :=
  mkComponent "Unitree H1 Torque Motor" "Actuator" "360 Nm Peak" "Zap".
Definition ousterLidar : RoboticComponent :=
  mkComponent "Ouster OS1 LiDAR" "Sensor" "128 Channels" "Eye".
Definition weldGun : RoboticComponent :=
  mkComponent "Industrial Weld Gun" "Tool" "10kA Resistance" "Hammer".
Definition titaniumSkeleton : RoboticComponent :=
  mkComponent "Titanium Skeleton" "Chassis" "6061-T6 Grade" "Shield".

(** The inventory, [COMPONENTS]. *)
Definition COMPONENTS : list RoboticComponent :=
  [jetsonOrin; torqueMotor; ousterLidar; weldGun; titaniumSkeleton].

(** The state held by [simRef]. *)
Record JointState := mkJointState {
  theta1 : R;
  omega1 : R;
  theta2 : R;
  omega2 : R
}.

(** ** The joint dynamics integrator ([App.tsx]) *)

(** The value of [simRef] at start-up and after "Reset Vectors". *)
Definition initialJointState : JointState :=
  {| theta1 := PI / 4; omega1 := 0; theta2 := PI / 6; omega2 := 0 |}.

(** The "Reset Vectors" button:
    [simRef.current = { theta1: Math.PI / 4, omega1: 0, ... }]. *)
Definition resetVectors (_ : JointState) : JointState := initialJointState.

(** The equipment installed at start-up:
    [{ 'Actuator': COMPONENTS[1], 'Tool': COMPONENTS[3] }]. *)
Definition initialComponents : gmap string RoboticComponent :=
  <["Tool"%string := weldGun]> (<["Actuator"%string := torqueMotor]> ∅).

(** [installedComponents['Chassis'] ? 0.8 : 1.0] *)
Definition chassisEffect (installedComponents : gmap string RoboticComponent) : R :=
  match installedComponents !! "Chassis"%string with
  | Some _ => 0.8
  | None => 1.0
  end.

(** The local [maxTorqueCapacity] of [render]: 100 unless an actuator
    is installed, its spec mentions "Nm" and starts with an integer. *)
Definition maxTorqueCapacity (installedComponents : gmap string RoboticComponent) : R :=
  match installedComponents !! "Actuator"%string with
  | Some actuator =>
      if includes "Nm" (spec actuator) then
        match parseInt (spec actuator) with
        | Some parsed => IZR parsed
        | None => 100
        end
      else 100
  | None => 100
  end.

(** One call of [render]: the body of the physics loop, on [simRef]. *)
Definition render (gravity friction torque : R)
    (installedComponents : gmap string RoboticComponent)
    (sim : JointState) : JointState :=
  let dt := 0.016 in
  let g := gravity in
  let damping := friction * 5 * chassisEffect installedComponents in
  let appliedTorque := (torque / 100) * maxTorqueCapacity installedComponents * 0.5 in
  let omega1' := omega1 sim + (appliedTorque - g * sin (theta1 sim) - omega1 sim * damping) * dt in
  let theta1' := theta1 sim + omega1' * dt in
  let omega2' := omega2 sim + (- g * sin (theta2 sim) - omega2 sim * damping) * dt in
  let theta2' := theta2 sim + omega2' * dt in
  {| theta1 := theta1'; omega1 := omega1'; theta2 := theta2'; omega2 := omega2' |}.

(** The state of [App] the physics effect depends on, with [simRef]. *)
Record AppState := mkApp {
  currentPage : Page;
  simRunning : bool;
  isEmergencyStopped : bool;
  gravity : R;
  friction : R;
  torque : R;
  installedComponents : gmap string RoboticComponent;
  simRef : JointState
}.

(** One animation frame of the "Simulation Physics Loop" effect.  The
    effect returns before it starts the loop unless the simulation page
    is shown, the simulation runs and no emergency stop is active; a
    change of any of these makes the effect's clean-up cancel the pending
    frame. *)
Definition physicsFrame (a : AppState) : AppState :=
  if negb (Page_eqb (currentPage a) Simulation) || negb (simRunning a)
     || isEmergencyStopped a
  then a
  else {| currentPage := currentPage a;
          simRunning := simRunning a;
          isEmergencyStopped := isEmergencyStopped a;
          gravity := gravity a;
          friction := friction a;
          torque := torque a;
          installedComponents := installedComponents a;
          simRef := render (gravity a) (friction a) (torque a)
                           (installedComponents a) (simRef a) |}.

(** [n] animation frames. *)
Definition physicsFrames (n : nat) (a : AppState) : AppState :=
  Nat.iter n physicsFrame a.

(** ** The weld-spatter particle pool ([components/Robot3DViewer.tsx]) *)

Definition MAX_SPARKS : nat := 800.

(** The three buffers of the spatter geometry, each a [Float32Array]:
    [position] and [aVelocity] hold three entries per spark, [aLife]
    one.  An entry is a real or [NaN] ([None]). *)
Record Spatter := mkSpatter {
  position : list (option R);
  aLife : list (option R);
  aVelocity : list (option R)
}.

(** The buffers as allocated: [new Float32Array(MAX_SPARKS * 3)],
    [new Float32Array(MAX_SPARKS)], all zero. *)
Definition newSpatter : Spatter :=
  {| position := replicate (MAX_SPARKS * 3) (Some 0);
     aLife := replicate MAX_SPARKS (Some 0);
     aVelocity := replicate (MAX_SPARKS * 3) (Some 0) |}.

(** [arr[i]] in a numeric context: outside the array the element is
    [undefined], which converts to [NaN]. *)
Definition readF32 (arr : list (option R)) (i : nat) : option R :=
  default None (arr !! i).

(** Arithmetic and comparisons with [NaN]. *)
Definition numAdd (x y : option R) : option R :=
  match x, y with Some a, Some b => Some (a + b) | _, _ => None end.
Definition numSub (x y : option R) : option R :=
  match x, y with Some a, Some b => Some (a - b) | _, _ => None end.
Definition numLe (x : option R) (y : R) : bool :=
  match x with Some a => if Rle_dec a y then true else false | None => false end.
Definition numLt (x : option R) (y : R) : bool :=
  match x with Some a => if Rlt_dec a y then true else false | None => false end.

(** The local state of one pass of the spawn loop: the buffers, the
    counter [spawned], and how many values [Math.random] has returned
    since the pass began. *)
Record SparkLoop := mkLoop {
  positions : list (option R);
  lifes : list (option R);
  vels : list (option R);
  spawned : Z;
  rng : nat
}.

Section SpatterUpdate.
(** Rounding to single precision, done by every store of a computed
    value into a [Float32Array].  The literals the loop stores (0, 0.5
    and 1.0) are single-precision numbers and are stored as they are. *)
Variable fround : R -> R.
(** The successive values that [Math.random()] returns in the frame,
    counted from the start of the "Spatter Update". *)
Variable random : nat -> R.

Definition storeF32 (arr : list (option R)) (i : nat) (v : option R) : list (option R) :=
  <[i := fround <$> v]> arr.

(** The activation of slot [i]: the body of
    [if (spawned < spawnRate && Math.random() < 0.3)], entered after
    the roll [random (rng s)]. *)
Definition spawnSpark (i : nat) (s : SparkLoop) : SparkLoop :=
  let lifes1 := <[i := Some 1.0]> (lifes s) in
  let positions1 :=
    <[(i * 3 + 2)%nat := Some 0.5]>
      (<[(i * 3 + 1)%nat := Some 0]> (<[(i * 3)%nat := Some 0]> (positions s))) in
  let angle := random (rng s + 1)%nat * PI * 2 in
  let spread := 0.05 + random (rng s + 2)%nat * 0.2 in
  let vels1 := storeF32 (vels s) (i * 3) (Some (cos angle * spread)) in
  let vels2 := storeF32 vels1 (i * 3 + 1) (Some (sin angle * spread)) in
  let vels3 := storeF32 vels2 (i * 3 + 2) (Some (0.1 + random (rng s + 3)%nat * 0.3)) in
  {| positions := positions1; lifes := lifes1; vels := vels3;
     spawned := (spawned s + 1)%Z; rng := (rng s + 4)%nat |}.

(** The [else] branch of the body: slot [i] is not free. *)
Definition advanceSpark (lifeMult : R) (i : nat) (s : SparkLoop) : SparkLoop :=
  let positions1 :=
    storeF32 (positions s) (i * 3)
      (numAdd (readF32 (positions s) (i * 3)) (readF32 (vels s) (i * 3))) in
  let positions2 :=
    storeF32 positions1 (i * 3 + 1)
      (numAdd (readF32 positions1 (i * 3 + 1)) (readF32 (vels s) (i * 3 + 1))) in
  let positions3 :=
    storeF32 positions2 (i * 3 + 2)
      (numAdd (readF32 positions2 (i * 3 + 2)) (readF32 (vels s) (i * 3 + 2))) in
  let vels1 :=
    storeF32 (vels s) (i * 3 + 1)
      (numSub (readF32 (vels s) (i * 3 + 1)) (Some 0.01)) in
  let lifes1 :=
    storeF32 (lifes s) i
      (numSub (readF32 (lifes s) i)
              (Some ((0.015 + random (rng s) * 0.01) / Rmax 0.1 lifeMult))) in
  let lifes2 :=
    if numLt (readF32 positions3 (i * 3 + 1)) (-1.5)
    then <[i := Some 0]> lifes1 else lifes1 in
  {| positions := positions3; lifes := lifes2; vels := vels1;
     spawned := spawned s; rng := (rng s + 1)%nat |}.

(** The body of [for (let i = 0; i < MAX_SPARKS; i++)].  The roll
    [Math.random() < 0.3] is made only when [spawned < spawnRate]
    holds. *)
Definition sparkStep (spawnRate : Z) (lifeMult : R) (i : nat) (s : SparkLoop) : SparkLoop :=
  if numLe (readF32 (lifes s) i) 0 then
    if (spawned s <? spawnRate)%Z then
      if Rlt_dec (random (rng s)) 0.3 then spawnSpark i s
      else
        {| positions := positions s; lifes := lifes s; vels := vels s;
           spawned := spawned s; rng := (rng s + 1)%nat |}
    else s
  else advanceSpark lifeMult i s.

(** [n] iterations of the loop, from index [i]. *)
Fixpoint sparkLoop (spawnRate : Z) (lifeMult : R) (n i : nat) (s : SparkLoop) : SparkLoop :=
  match n with
  | O => s
  | S n' => sparkLoop spawnRate lifeMult n' (S i) (sparkStep spawnRate lifeMult i s)
  end.

(** The state in which the loop starts: [let spawned = 0]. *)
Definition loopStart (sp : Spatter) : SparkLoop :=
  {| positions := position sp; lifes := aLife sp; vels := aVelocity sp;
     spawned := 0; rng := 0 |}.

(** The loop with its initialisation, [let spawned = 0; for (...) ...],
    for a given value of [spawnRate]. *)
Definition runSparks (spawnRate : Z) (lifeMult : R) (sp : Spatter) : SparkLoop :=
  sparkLoop spawnRate lifeMult MAX_SPARKS 0 (loopStart sp).

(** The active branch of the "Spatter Update":
    [spawnRate = Math.floor(density * 20)], then the loop. *)
Definition spatterTick (density lifeMult : R) (sp : Spatter) : SparkLoop :=
  runSparks (Zfloor (density * 20)) lifeMult sp.

(** [for (let i = 0; i < MAX_SPARKS; i++) lifes[i] = 0], [n]
    iterations from index [i]. *)
Fixpoint clearLoop (n i : nat) (lifes : list (option R)) : list (option R) :=
  match n with
  | O => lifes
  | S n' => clearLoop n' (S i) (<[i := Some 0]> lifes)
  end.

(** The "Spatter Update" block of [animate], on [spatterRef.current]
    ([None] while the scene is not set up). *)
Definition spatterUpdate (isRunningNow isEStoppedNow hasTool : bool)
    (density lifeMult : R) (spatterRef : option Spatter) : option Spatter :=
  match spatterRef with
  | Some sp =>
      if isRunningNow && negb isEStoppedNow && hasTool then
        let s := spatterTick density lifeMult sp in
        Some {| position := positions s; aLife := lifes s; aVelocity := vels s |}
      else
        Some {| position := position sp;
                aLife := clearLoop MAX_SPARKS 0 (aLife sp);
                aVelocity := aVelocity sp |}
  | None => None
  end.

(** A variant of the loop body that follows the words "the per-tick
    spawn budget counts attempts, not confirmed spawns": the counter
    advances on every roll of a free slot, whether the slot is
    activated or not.  It is compared with [sparkStep], and is not
    part of the program. *)
Definition attemptStep (spawnRate : Z) (lifeMult : R) (i : nat) (s : SparkLoop) : SparkLoop :=
  if numLe (readF32 (lifes s) i) 0 then
    if (spawned s <? spawnRate)%Z then
      if Rlt_dec (random (rng s)) 0.3 then spawnSpark i s
      else
        {| positions := positions s; lifes := lifes s; vels := vels s;
           spawned := (spawned s + 1)%Z; rng := (rng s + 1)%nat |}
    else s
  else advanceSpark lifeMult i s.

Fixpoint attemptLoop (spawnRate : Z) (lifeMult : R) (n i : nat) (s : SparkLoop) : SparkLoop :=
  match n with
  | O => s
  | S n' => attemptLoop spawnRate lifeMult n' (S i) (attemptStep spawnRate lifeMult i s)
  end.

(** The active branch under that reading. *)
Definition attemptTick (density lifeMult : R) (sp : Spatter) : SparkLoop :=
  attemptLoop (Zfloor (density * 20)) lifeMult MAX_SPARKS 0 (loopStart sp).
End SpatterUpdate.

(** The slots below [n] that are free (life at most 0) in [before] and
    alive in [after]. *)
Definition activatedBelow (n : nat) (before after : list (option R)) : list nat :=
  List.filter (fun i => numLe (readF32 before i) 0 && negb (numLe (readF32 after i) 0))
              (seq 0 n).

(** The sparks that one tick activated: free before, alive after. *)
Definition newlyActive (before after : list (option R)) : list nat :=
  activatedBelow MAX_SPARKS before after.

(** The slots from [i] to [i + n - 1] are free in [s]. *)
Definition freeRange (i n : nat) (s : SparkLoop) : Prop :=
  forall j, (i <= j < i + n)%nat -> numLe (readF32 (lifes s) j) 0 = true.

(** ** The health overlay *)

(** A JSON value, as [JSON.parse] returns it. *)
#[warnings="-register-all"] Inductive json :=
  | JNull
  | JBool (b : bool)
  | JNum (r : R)
  | JStr (s : string)
  | JArr (items : list json)
  | JObj (fields : gmap string json).

(** The result of a call that may throw. *)
Inductive outcome (A : Type) :=
  | Returns (a : A)
  | Throws.
Arguments Returns {A} a.
Arguments Throws {A}.

Definition bindOutcome {A B : Type} (x : outcome A) (k : A -> outcome B) : outcome B :=
  match x with
  | Returns a => k a
  | Throws => Throws
  end.

(** [try { body } catch (error) { handler }] *)
Definition tryCatch {A : Type} (body : outcome A) (handler : outcome A) : outcome A :=
  match body with
  | Returns a => Returns a
  | Throws => handler
  end.

(** The record returned from the [catch] block of
    [analyzeTelemetryHealth]. *)
Definition offlineRecord : gmap string json :=
  <["nextCalibration"%string := JStr "Immediate"]>
  (<["briefAnalysis"%string := JStr "Analysis engine offline."]>
  (<["state"%string := JStr "Unknown"]>
  (<["healthScore"%string := JNum 50]> ∅))).

(** The placeholder [analyzeAll] shows while a component is scanned. *)
Definition scanningRecord : gmap string json :=
  <["isScanning"%string := JBool true]>
  (<["nextCalibration"%string := JStr "--"]>
  (<["briefAnalysis"%string := JStr "Acquiring..."]>
  (<["state"%string := JStr "Scanning"]>
  (<["healthScore"%string := JNum 100]> ∅)))).

(** The own enumerable properties an object spread copies from a JSON
    value: the fields of an object, the indexed items of an array, the
    indexed characters of a string, nothing otherwise. *)
Definition spreadProps (v : json) : gmap string json :=
  match v with
  | JObj fields => fields
  | JArr items => list_to_map (imap (fun i x => (pretty i, x)) items)
  | JStr s =>
      list_to_map
        (imap (fun i c => (pretty i, JStr (String c EmptyString)))
              (list_ascii_of_string s))
  | JNull | JBool _ | JNum _ => ∅
  end.

Definition doubleQuote : string := String (ascii_of_nat 34) EmptyString.

(** What [analyzeTelemetryHealth] sends to the service:
    [`Component Telemetry: "${telemetry}"`]. *)
Definition contentsOf (telemetry : string) : string :=
  "Component Telemetry: " +:+ doubleQuote +:+ telemetry +:+ doubleQuote.

(** What [analyzeAll] asks about the component in slot [type]:
    [`Component: ${comp.name}, System: ${type}`]. *)
Definition telemetryOf (comp : RoboticComponent) (type : string) : string :=
  "Component: " +:+ name comp +:+ ", System: " +:+ type.

Section HealthOverlay.
(** The analysis service: [new GoogleGenAI(...)] followed by
    [ai.models.generateContent] on the given [contents]; it throws, or
    returns a response whose [text] is a string or [undefined]. *)
Variable generateContent : string -> outcome (option string).
(** [JSON.parse], which throws on malformed text. *)
Variable JSON_parse : string -> outcome json.

(** [analyzeTelemetryHealth] ([services/geminiService.ts]). *)
Definition analyzeTelemetryHealth (telemetry : string) : outcome json :=
  tryCatch
    (bindOutcome
       (generateContent (contentsOf telemetry))
       (fun text =>
          JSON_parse
            match text with
            | Some t => if String.eqb t EmptyString then "{}" else t
            | None => "{}"
            end))
    (Returns (JObj offlineRecord)).

(** [Object.keys(installedComponents)] *)
Definition Object_keys (installed : gmap string RoboticComponent) : list string :=
  (map_to_list installed).*1.

(** One round of the second loop of [analyzeAll]:
    [comp = installedComponents[type]], the analysis of the telemetry
    description of [comp], then
    [setHealthOverlay(prev => ({ ...prev, [type]: updated }))] with
    [updated = { ...analysis, isScanning: false }].  Reading [comp.name]
    of a missing component throws, and so does an analysis that throws;
    either ends [analyzeAll]. *)
Definition analyzeOne (installed : gmap string RoboticComponent)
    (overlay : outcome (gmap string (gmap string json))) (type : string)
    : outcome (gmap string (gmap string json)) :=
  bindOutcome overlay (fun prev =>
  bindOutcome (match installed !! type with
               | Some comp => Returns comp
               | None => Throws
               end) (fun comp =>
  bindOutcome (analyzeTelemetryHealth (telemetryOf comp type)) (fun analysis =>
    let updated := <["isScanning"%string := JBool false]> (spreadProps analysis) in
    Returns (<[type := updated]> prev)))).

(** [analyzeAll] (started by the viewer while [isRunning] holds): the
    health overlay once every analysis has settled. *)
Definition analyzeAll (installed : gmap string RoboticComponent)
    : outcome (gmap string (gmap string json)) :=
  let types := Object_keys installed in
  let results := foldl (fun results type => <[type := scanningRecord]> results) ∅ types in
  foldl (analyzeOne installed) (Returns results) types.

(** The overlay entry that [analyzeAll] writes for the component
    [comp] of slot [type]. *)
Definition entryOf (comp : RoboticComponent) (type : string) : gmap string json :=
  match analyzeTelemetryHealth (telemetryOf comp type) with
  | Returns analysis => <["isScanning"%string := JBool false]> (spreadProps analysis)
  | Throws => ∅
  end.
End HealthOverlay.

(** ** Concrete inputs used below *)

(** A leg in motion, and an application halted by the emergency stop
    while the simulation page is shown. *)
Definition movingJoints : JointState :=
  {| theta1 := 1; omega1 := 2; theta2 := 3; omega2 := -1 |}.

Definition haltedApp : AppState :=
  {| currentPage := Simulation; simRunning := true; isEmergencyStopped := true;
     gravity := 9.8; friction := 0.1; torque := 50;
     installedComponents := initialComponents; simRef := movingJoints |}.

(** An actuator whose spec mentions "Nm" but does not start with a
    number. *)
Definition unratedServo : RoboticComponent :=
  mkComponent "Prototype Servo" "Actuator" "Peak Nm unrated" "Zap".

(** An actuator whose spec starts with a number but does not mention
    "Nm" (the spec of the compute module, in the actuator slot). *)
Definition topsActuator : RoboticComponent :=
  mkComponent "NVIDIA Jetson AGX Orin" "Actuator" "275 TOPS" "Cpu".

(** A pool in which every slot is alive. *)
Definition allAlive : Spatter :=
  {| position := replicate (MAX_SPARKS * 3) (Some 0);
     aLife := replicate MAX_SPARKS (Some 1);
     aVelocity := replicate (MAX_SPARKS * 3) (Some 0) |}.

(** A pool whose first spark is alive, at rest, and below the floor
    ([position.y = -1.6]). *)
Definition sunkenSpark : Spatter :=
  {| position := <[1%nat := Some (-1.6)]> (replicate (MAX_SPARKS * 3) (Some 0));
     aLife := <[0%nat := Some 1]> (replicate MAX_SPARKS (Some 0));
     aVelocity := replicate (MAX_SPARKS * 3) (Some 0) |}.

(** A loop state over a pool of one slot, free, about to be visited. *)
Definition oneFreeSlot : SparkLoop :=
  {| positions := [Some 1; Some 1; Some 1]; lifes := [Some 0];
     vels := [Some 0; Some 0; Some 0]; spawned := 0; rng := 0 |}.

(** A loop state over a pool of one slot, alive, falling through the
    floor. *)
Definition oneFallingSlot : SparkLoop :=
  {| positions := [Some 0; Some (-1.45); Some 0.5]; lifes := [Some 0.8];
     vels := [Some 0; Some (-0.1); Some 0]; spawned := 0; rng := 0 |}.

(** A run of [Math.random] in which the first twenty values are 0.5 and
    all later ones 0.1: the first twenty rolls of a tick fail, every
    later one succeeds. *)
Definition rollsFailThenPass (k : nat) : R :=
  if (k <? 20)%nat then 0.5 else 0.1.

(** A service that is down, and a parser that is never reached. *)
Definition serviceDown (_ : string) : outcome (option string) := Throws.
Definition parserUnused (_ : string) : outcome json := Throws.

(* ------------------------------------------------------------------ *)
(** ** The rest of the application: controls, sampler, services, lights *)
(* ------------------------------------------------------------------ *)

(** ** More of [App.tsx]: the controls of the simulation lab *)

(** [String.prototype.trim]: white space is removed at both ends. *)
Fixpoint trimEnd (s : string) : string :=
  match s with
  | EmptyString => EmptyString
  | String c s' =>
      match trimEnd s' with
      | EmptyString => if isWhiteSpace c then EmptyString else String c EmptyString
      | t => String c t
      end
  end.

Definition trim (s : string) : string := trimEnd (trimStart s).

(** Is every character of [s] white space? *)
Definition allWhiteSpace (s : string) : bool :=
  forallb isWhiteSpace (list_ascii_of_string s).

(** A string as a condition: the empty string is falsy. *)
Definition truthyString (s : string) : bool := negb (String.eqb s EmptyString).

(** [n] calls of [render] with the same parameters. *)
Definition simulate (n : nat) (gravity friction torque : R)
    (installed : gmap string RoboticComponent) (sim : JointState) : JointState :=
  Nat.iter n (render gravity friction torque installed) sim.

(** The state setters of [App] that the handlers below use. *)
Definition setCurrentPage (p : Page) (a : AppState) : AppState :=
  {| currentPage := p; simRunning := simRunning a;
     isEmergencyStopped := isEmergencyStopped a; gravity := gravity a;
     friction := friction a; torque := torque a;
     installedComponents := installedComponents a; simRef := simRef a |}.

Definition setSimRunning (b : bool) (a : AppState) : AppState :=
  {| currentPage := currentPage a; simRunning := b;
     isEmergencyStopped := isEmergencyStopped a; gravity := gravity a;
     friction := friction a; torque := torque a;
     installedComponents := installedComponents a; simRef := simRef a |}.

Definition setIsEmergencyStopped (b : bool) (a : AppState) : AppState :=
  {| currentPage := currentPage a; simRunning := simRunning a;
     isEmergencyStopped := b; gravity := gravity a;
     friction := friction a; torque := torque a;
     installedComponents := installedComponents a; simRef := simRef a |}.

Definition setInstalledComponents
    (f : gmap string RoboticComponent -> gmap string RoboticComponent)
    (a : AppState) : AppState :=
  {| currentPage := currentPage a; simRunning := simRunning a;
     isEmergencyStopped := isEmergencyStopped a; gravity := gravity a;
     friction := friction a; torque := torque a;
     installedComponents := f (installedComponents a); simRef := simRef a |}.

(** The "Stop Sim" / "Start Sim" button: [setSimRunning(!simRunning)]. *)
Definition toggleSim (a : AppState) : AppState :=
  setSimRunning (negb (simRunning a)) a.

(** The "Reset E-Stop" button: [setIsEmergencyStopped(false)]. *)
Definition resetEStop (a : AppState) : AppState :=
  setIsEmergencyStopped false a.

(** The state of a drag-and-drop gesture over the robot. *)
Record DragState := mkDrag {
  dragApp : AppState;
  draggedItem : option RoboticComponent;
  isDraggingOver : bool
}.

(** [onDragStart] of an inventory card: [setDraggedItem(comp)]. *)
Definition onDragStart (comp : RoboticComponent) (d : DragState) : DragState :=
  {| dragApp := dragApp d; draggedItem := Some comp; isDraggingOver := isDraggingOver d |}.

(** [handleDrop]: the dragged item, if there is one, is installed in
    the slot named by its type; the gesture ends. *)
Definition handleDrop (d : DragState) : DragState :=
  {| dragApp :=
       match draggedItem d with
       | Some item =>
           setInstalledComponents (fun prev => <[type item := item]> prev) (dragApp d)
       | None => dragApp d
       end;
     draggedItem := None;
     isDraggingOver := false |}.

(** The local [maxVal] of [renderSimulation]:
    [parseInt(actuator.spec) || 100] when the spec mentions "Nm", where
    [NaN] and 0 are both falsy. *)
Definition maxVal (installed : gmap string RoboticComponent) : R :=
  match installed !! "Actuator"%string with
  | Some actuator =>
      if includes "Nm" (spec actuator) then
        match parseInt (spec actuator) with
        | Some parsed => if (parsed =? 0)%Z then 100 else IZR parsed
        | None => 100
        end
      else 100
  | None => 100
  end.

(** The torque shown beside the slider, before [toFixed(0)]:
    [torque / 100 * maxVal * 0.5]. *)
Definition displayedTorque (torque : R) (installed : gmap string RoboticComponent) : R :=
  torque / 100 * maxVal installed * 0.5.

(** [export type Subsystem]. *)
Inductive Subsystem := Head | Torso | Arm_L | Arm_R | Leg_L | Leg_R | General.

(** The state [handleRunDiagnostics] works on, beside that of the
    simulation. *)
Record DiagState := mkDiag {
  diagApp : AppState;
  errorLog : string;
  isDiagnosing : bool;
  highlightedSubsystem : option json;
  diagResult : json
}.

(** [handleRunDiagnostics(log)] up to its [await]: the log to analyse is
    [log || errorLog] ([diagInput]); a blank one ends the handler; a log that reports a
    human in the cell halts the robot; then the analysis is requested.
    The result is the new state and the text sent to
    [resolveRoboticsError], or nothing when the handler returned. *)
Definition diagInput (log : option string) (d : DiagState) : string :=
  match log with
  | Some l => if truthyString l then l else errorLog d
  | None => errorLog d
  end.

Definition beginDiagnostics (log : option string) (d : DiagState)
    : DiagState * option string :=
  let input := diagInput log d in
  if negb (truthyString (trim input)) then (d, None)
  else
    let halted :=
      if includes "Human profile identified" input
         || includes "CRITICAL_SAFETY_ALARM" input
      then setSimRunning false (setIsEmergencyStopped true (diagApp d))
      else diagApp d in
    ({| diagApp := halted; errorLog := errorLog d; isDiagnosing := true;
        highlightedSubsystem := Some (JStr "General");
        diagResult := diagResult d |},
     Some input).

(** [result.subsystem] and the like: reading a property of [null]
    throws; a JSON object gives the field or [undefined]; any other JSON
    value has no such property. *)
Definition getField (key : string) (v : json) : outcome (option json) :=
  match v with
  | JNull => Throws
  | JObj fields => Returns (fields !! key)
  | _ => Returns None
  end.

(** [handleRunDiagnostics] after its [await], given the analysis:
    [setDiagResult(result); setHighlightedSubsystem(result.subsystem);
    setIsDiagnosing(false)].  When reading [result.subsystem] throws, only
    the first update has been made. *)
Definition endDiagnostics (result : json) (d : DiagState) : DiagState :=
  match getField "subsystem" result with
  | Returns subsystem =>
      {| diagApp := diagApp d; errorLog := errorLog d; isDiagnosing := false;
         highlightedSubsystem := subsystem; diagResult := result |}
  | Throws =>
      {| diagApp := diagApp d; errorLog := errorLog d; isDiagnosing := isDiagnosing d;
         highlightedSubsystem := highlightedSubsystem d; diagResult := result |}
  end.

(** The log of the first production preset, "Safety Breach: Human
    Intrusion". *)
Definition intrusionLog : string :=
  "CRITICAL_SAFETY_ALARM: Light curtain breach at Zone 4 (Production Jig). Proximity sensor detection: Human profile identified. IMU-STOP command broadcast. All kinetic movement halted. Robot state: LOCKED_EMERGENCY.".

(** The "Simulate Human Intrusion" button, up to the [await]:
    [setIsEmergencyStopped(true); setSimRunning(false);
    handleRunDiagnostics(PRODUCTION_PRESETS[0].log)]. *)
Definition simulateIntrusion (d : DiagState) : DiagState * option string :=
  beginDiagnostics (Some intrusionLog)
    {| diagApp := setSimRunning false (setIsEmergencyStopped true (diagApp d));
       errorLog := errorLog d; isDiagnosing := isDiagnosing d;
       highlightedSubsystem := highlightedSubsystem d; diagResult := diagResult d |}.

(** The state [handleSearch] works on, beside that of the simulation. *)
Record SearchState := mkSearch {
  searchApp : AppState;
  searchQuery : string;
  isSearching : bool;
  searchResult : option json
}.

(** [handleSearch(query)] up to its [await]:
    [setSearchQuery(query); setCurrentPage(Page.Search);
    setIsSearching(true)]. *)
Definition handleSearch (query : string) (s : SearchState) : SearchState :=
  {| searchApp := setCurrentPage Search (searchApp s); searchQuery := query;
     isSearching := true; searchResult := searchResult s |}.

(** [handleSearchSubmit] of the navigation bar ([components/Navbar.tsx]),
    on the text of the search field: a query that is not blank is passed
    to [onSearch] as typed and the field is cleared.  The result is the
    argument of [onSearch], if it is called, and the new text of the
    field. *)
Definition handleSearchSubmit (localQuery : string) : option string * string :=
  if truthyString (trim localQuery) then (Some localQuery, EmptyString)
  else (None, localQuery).

(** A sequence of drag-and-drop gestures, one per component of [items]. *)
Definition installAll (items : list RoboticComponent) (d : DragState) : DragState :=
  foldl (fun d item => handleDrop (onDragStart item d)) d items.

(** A console on the simulation page, running, with an empty log. *)
Definition idleConsole : DiagState :=
  {| diagApp := setIsEmergencyStopped false haltedApp; errorLog := EmptyString;
     isDiagnosing := false; highlightedSubsystem := Some (JStr "General");
     diagResult := JNull |}.

(** ** The energy and network sampler ([App.tsx]) *)

Record EnergySample := mkEnergy {
  energyTime : string;
  power : R
}.

Record NetworkSample := mkNetwork {
  networkTime : string;
  latency : R;
  errors : Z
}.

(** [arr.slice(-k)]: the last [k] elements, all of them when there are
    fewer. *)
Definition sliceLast {A : Type} (k : nat) (l : list A) : list A :=
  drop (length l - k) l.

(** The state the sampler reads and writes. *)
Record Telemetry := mkTelemetry {
  telemetryApp : AppState;
  energyData : list EnergySample;
  networkData : list NetworkSample
}.

Section Sampler.
(** The successive values of [Math.random()] in one run of the
    callback. *)
Variable random : nat -> R.
(** [new Date().toLocaleTimeString().split(' ')[0]] at the two places it
    is evaluated. *)
Variable energyClock networkClock : string.

(** The power sample:
    [200 + Math.random() * 150 + (currentPage === Page.Simulation ? Math.abs(torque) : 0)]. *)
Definition powerSample (a : AppState) : EnergySample :=
  {| energyTime := energyClock;
     power := 200 + random 0 * 150
              + (if Page_eqb (currentPage a) Simulation then Rabs (torque a) else 0) |}.

(** The network sample: [spike] is
    [Math.random() > 0.85 ? Math.floor(Math.random() * 15) : 0]; the
    latency roll is the next random number. *)
Definition networkSample : NetworkSample :=
  let spiking := if Rgt_dec (random 1) 0.85 then true else false in
  let spike := if spiking then Zfloor (random 2 * 15) else 0%Z in
  let roll := if spiking then random 3 else random 2 in
  {| networkTime := networkClock;
     latency := 20 + roll * 30 + (if (0 <? spike)%Z then 150 else 0);
     errors := spike |}.

(** One run of the callback of [setInterval(..., 2000)]. *)
Definition samplerTick (s : Telemetry) : Telemetry :=
  if isEmergencyStopped (telemetryApp s) then s
  else
    {| telemetryApp := telemetryApp s;
       energyData := sliceLast 20 (energyData s ++ [powerSample (telemetryApp s)]);
       networkData := sliceLast 20 (networkData s ++ [networkSample]) |}.
End Sampler.

(** [n] runs of the callback; run [k] draws its random numbers from
    [random k] and reads the clock [clock k]. *)
Definition samplerRuns (random : nat -> nat -> R) (clock : nat -> string)
    (n : nat) (s : Telemetry) : Telemetry :=
  foldl (fun s k => samplerTick (random k) (clock k) (clock k) s) s (seq 0 n).

(** ** The other services ([services/geminiService.ts]) *)

Definition newline : string := String (ascii_of_nat 10) EmptyString.

(** The record returned from the [catch] block of
    [resolveRoboticsError]. *)
Definition diagnosticFallback : gmap string json :=
  <["permanentFix"%string := JStr "Verify diagnostic sensor calibration."]>
  (<["hotfix"%string := JStr "Reboot main controller."]>
  (<["analysis"%string :=
       JStr "Critical diagnostic failure. The system could not isolate the source."]>
  (<["subsystem"%string := JStr "General"]> ∅))).

(** A JSON value or [undefined] as a condition. *)
Definition truthy (v : option json) : bool :=
  match v with
  | None | Some JNull => false
  | Some (JBool b) => b
  | Some (JNum r) => if Req_dec_T r 0 then false else true
  | Some (JStr s) => truthyString s
  | Some (JArr _) | Some (JObj _) => true
  end.

(** What [resolveRoboticsError] sends to the service. *)
Definition diagnosticRequest (errorLog : string) : string :=
  "Diagnostic Request: Analyze and find the exact source of failure for: "
    +:+ doubleQuote +:+ errorLog +:+ doubleQuote.

Section Services.
(** The call of the analysis service made by a function of the module,
    with that function's model and configuration, on the given
    [contents]: it throws, or returns a response whose [text] is a string
    or [undefined]. *)
Variable generateContent : string -> outcome (option string).
Variable JSON_parse : string -> outcome json.

(** [askRoboticsExpert] *)
Definition askRoboticsExpert (question : string) : outcome (option string) :=
  tryCatch (generateContent question)
    (Returns (Some "I'm having trouble connecting to my central processing unit. Please try again later."%string)).

(** [analyzeRoboticCommand] *)
Definition analyzeRoboticCommand (command : string) : outcome (option string) :=
  tryCatch
    (generateContent
       ("Robotic Command/Code: " +:+ newline +:+ "```" +:+ newline +:+ command
          +:+ newline +:+ "```"))
    (Returns (Some "Neural parser failed to decode command structure."%string)).

(** [optimizeEnergy] *)
Definition optimizeEnergy (telemetry : string) : outcome (option string) :=
  tryCatch (generateContent ("Current Telemetry: " +:+ telemetry))
    (Returns (Some "Could not compute energy optimization at this time."%string)).

(** [resolveRoboticsError] *)
Definition resolveRoboticsError (errorLog : string) : outcome json :=
  tryCatch
    (bindOutcome
       (generateContent (diagnosticRequest errorLog))
       (fun text =>
          JSON_parse
            match text with
            | Some t => if String.eqb t EmptyString then "{}" else t
            | None => "{}"
            end))
    (Returns (JObj diagnosticFallback)).

(** [handleRunDiagnostics(log)] from start to end.  Should
    [resolveRoboticsError] throw, the state is the one set before the
    [await]. *)
Definition handleRunDiagnostics (log : option string) (d : DiagState) : DiagState :=
  let (d1, sent) := beginDiagnostics log d in
  match sent with
  | None => d1
  | Some input =>
      match resolveRoboticsError input with
      | Returns result => endDiagnostics result d1
      | Throws => d1
      end
  end.

(** The state of the "Trace Communication" panel. *)
Record DebugState := mkDebug {
  debugLog : json;
  isDebugging : bool
}.

(** [handleRunNetworkDebug]:
    [setIsDebugging(true); result = await resolveRoboticsError(...);
    setDebugLog(result.analysis || "Analysis failed."); setIsDebugging(false)].
    When reading [result.analysis] throws, only the first update has
    happened. *)
Definition handleRunNetworkDebug (s : DebugState) : DebugState :=
  match
    bindOutcome (resolveRoboticsError "Latency spikes detected in communication bus.")
      (fun result => getField "analysis" result)
  with
  | Returns analysis =>
      {| debugLog := if truthy analysis then default JNull analysis
                     else JStr "Analysis failed.";
         isDebugging := false |}
  | Throws => {| debugLog := debugLog s; isDebugging := true |}
  end.
End Services.

(** ** The textbook ([renderTextbook]) *)

(** [String.prototype.toLowerCase] on 8-bit code units: the letters A-Z
    and the capital letters of Latin-1. *)
Definition toLowerChar (c : ascii) : ascii :=
  let n := nat_of_ascii c in
  if ((65 <=? n) && (n <=? 90) || (192 <=? n) && (n <=? 222) && negb (n =? 215))%nat
  then ascii_of_nat (n + 32) else c.

Fixpoint toLowerCase (s : string) : string :=
  match s with
  | EmptyString => EmptyString
  | String c s' => String (toLowerChar c) (toLowerCase s')
  end.

(** [export interface Chapter] (the field [id] is [chapterId] here). *)
Record Chapter := mkChapter {
  chapterId : string;
  title : string;
  description : string;
  content : string;
  category : string
}.

(** The local [filtered] of [renderTextbook], for a list of chapters. *)
Definition filterChapters (textbookSearch : string) (chapters : list Chapter) : list Chapter :=
  List.filter
    (fun c =>
       includes (toLowerCase textbookSearch) (toLowerCase (title c))
       || includes (toLowerCase textbookSearch) (toLowerCase (content c)))
    chapters.

(** The first two chapters of [CHAPTERS]. *)
Definition sampleChapters : list Chapter :=
  [ mkChapter "1" "High-Torque Actuators"
      "The muscular system of humanoid robots, focusing on BLDC motors and harmonic drives."
      "Humanoid robotics requires a delicate balance of power density and precision. Modern actuators utilize high-efficiency Brushless DC (BLDC) motors paired with strain wave gearing (Harmonic Drives) to achieve the necessary torque for bipedal locomotion. Key metrics include Torque-to-Weight ratio and thermal management strategies in compact limb enclosures."
      "Hardware";
    mkChapter "2" "Visual Transformers in Perception"
      "Applying Vision Transformers (ViT) for real-time spatial awareness and object manipulation."
      "Perception has moved beyond simple depth sensing. Leveraging end-to-end neural networks like Vision Transformers allows humanoids to understand complex spatial relationships. This chapter explores how temporal consistency and semantic segmentation enable a robot to navigate unstructured human environments safely."
      "AI" ].

(** A sampler state on the energy page with 19 samples recorded. *)
Definition busyTelemetry : Telemetry :=
  {| telemetryApp := setCurrentPage Energy (setIsEmergencyStopped false haltedApp);
     energyData := replicate 19 (mkEnergy "10:00:00" 250);
     networkData := replicate 20 (mkNetwork "10:00:00" 30 0) |}.

(** Constant rolls: every [Math.random()] returns 0.9. *)
Definition highRolls (_ : nat) : R := 0.9.

(** A service that answers [null]. *)
Definition answersNull (_ : string) : outcome (option string) := Returns (Some "null"%string).
Definition parsesNull (_ : string) : outcome json := Returns JNull.

(** ** More of [Robot3DViewer.tsx]: the lights *)

(** What [animate] sets on a material: [color.setHex], [emissive.setHex]
    and [emissiveIntensity]. *)
Record Material := mkMaterial {
  color : Z;
  emissive : Z;
  emissiveIntensity : R
}.

(** The local [compType] of the "LED Updates": the equipment slot a
    status light reports on. *)
Definition compTypeOf (subsystem : Subsystem) : string :=
  match subsystem with
  | Head => "Compute"
  | Torso => "Chassis"
  | Arm_R => "Tool"
  | Leg_L => "Actuator"
  | _ => EmptyString
  end.

Section StatusLights.
(** The conversion to a number of a string, an array or an object, as
    the comparison [h.healthScore < 40] makes it. *)
Variable toNumberOther : json -> option R.

(** [ToNumber] of a JSON value or [undefined]; [None] is [NaN]. *)
Definition toNumber (v : option json) : option R :=
  match v with
  | None => None
  | Some JNull => Some 0
  | Some (JBool b) => Some (if b then 1 else 0)
  | Some (JNum r) => Some r
  | Some other => toNumberOther other
  end.

(** [h.state === s] *)
Definition stateIs (h : gmap string json) (s : string) : bool :=
  match h !! "state"%string with
  | Some (JStr t) => String.eqb t s
  | _ => false
  end.

(** The body of [statusLedsRef.current.forEach((led, subsystem) => ...)]
    at the time [time]; [roll] is the value of [Math.random()], drawn for a
    failed component only. *)
Definition ledUpdate (time roll : R) (isEStoppedNow : bool)
    (healthMap : gmap string (gmap string json)) (subsystem : Subsystem) : Material :=
  let pulse := sin (time * 0.005) in
  let h := healthMap !! compTypeOf subsystem in
  let (color, intensity) :=
    if isEStoppedNow then (0xff0000%Z, 3.0 + sin (time * 0.02) * 2.0)
    else
      match h with
      | Some h =>
          if stateIs h "Failed" || numLt (toNumber (h !! "healthScore"%string)) 40
          then (0xff0000%Z, 2.0 + roll * 2.0)
          else if stateIs h "Throttling" || numLt (toNumber (h !! "healthScore"%string)) 70
          then (0xfacc15%Z, 1.5 + pulse)
          else (0x00ff00%Z, 1.0)
      | None => (0x00ff00%Z, 1.0)
      end in
  {| color := color; emissive := color; emissiveIntensity := intensity |}.
End StatusLights.

(** The "Weld Gun Tip Glow Logic" of [animate], on the material of
    [tipRef.current] ([None] while the scene is not set up). *)
Definition tipGlow (time : R) (isRunningNow isEStoppedNow hasTool : bool)
    (tip : option Material) : option Material :=
  match tip with
  | Some mat =>
      if hasTool then
        let pulse := sin (time * 0.005) in
        let emergencyPulse := sin (time * 0.04) in
        if isEStoppedNow then
          Some {| color := color mat; emissive := 0xff0000%Z;
                  emissiveIntensity := 2.0 + emergencyPulse * 1.5 |}
        else if isRunningNow then
          Some {| color := color mat; emissive := 0xff4400%Z;
                  emissiveIntensity := 1.2 + pulse * 0.8 |}
        else
          Some {| color := color mat; emissive := emissive mat; emissiveIntensity := 0 |}
      else Some mat
  | None => None
  end.

(** The tip as created: dark steel, orange emissive colour, no glow. *)
Definition newTip : Material :=
  {| color := 0x1e293b%Z; emissive := 0xff4400%Z; emissiveIntensity := 0 |}.

(** The flags [animate] reads, as the viewer's effect copies them from
    the properties [App] passes:
    [isRunning={simRunning && !isEmergencyStopped}],
    [isEmergencyStopped={isEmergencyStopped}] and
    [hasTool = !!installedComponents['Tool']]. *)
Definition isRunningProp (a : AppState) : bool :=
  simRunning a && negb (isEmergencyStopped a).

Definition hasToolOf (a : AppState) : bool :=
  match installedComponents a !! "Tool"%string with
  | Some _ => true
  | None => false
  end.

(** One frame of [animate] for the spatter and the tip, with the flags
    of the application state. *)
Definition viewerSpatter (fround : R -> R) (random : nat -> R) (a : AppState)
    (density lifeMult : R) (spatterRef : option Spatter) : option Spatter :=
  spatterUpdate fround random (isRunningProp a) (isEmergencyStopped a) (hasToolOf a)
    density lifeMult spatterRef.

Definition viewerTip (time : R) (a : AppState) (tip : option Material) : option Material :=
  tipGlow time (isRunningProp a) (isEmergencyStopped a) (hasToolOf a) tip.

(** The slots that are not free: those [animate] advances. *)
Definition aliveBelow (n : nat) (lifes : list (option R)) : list nat :=
  List.filter (fun i => negb (numLe (readF32 lifes i) 0)) (seq 0 n).

Definition alive (lifes : list (option R)) : list nat := aliveBelow MAX_SPARKS lifes.

(** No conversion of strings, arrays and objects is needed below. *)
Definition noOtherNumber (_ : json) : option R := None.

(** Constant rolls: every [Math.random()] returns 0.1. *)
Definition lowRolls (_ : nat) : R := 0.1.

(* ================================================================== *)
(** * Part II: properties                                              *)
(* ================================================================== *)

(** ** [parseInt] and [includes] on the specs of the inventory *)

Example parseInt_360 : parseInt "360 Nm Peak" = Some 360%Z.
Proof. reflexivity. Qed.
Example parseInt_hex : parseInt "  -0x1f Nm" = Some (-31)%Z.
Proof. reflexivity. Qed.
Example parseInt_nan : parseInt "Nm 360" = None.
Proof. reflexivity. Qed.
Example parseInt_10kA : parseInt "10kA Resistance" = Some 10%Z.
Proof. reflexivity. Qed.
Example includes_Nm : includes "Nm" "360 Nm Peak" = true.
Proof. reflexivity. Qed.
Example includes_TOPS : includes "Nm" "275 TOPS" = false.
Proof. reflexivity. Qed.

(** ** The joint dynamics integrator *)

(** C1.  One call of [render] is the forward-Euler step of the
    specification with [dt = 0.016]: the new angular velocity of each
    joint is the old one plus [dt] times the torque balance, the new
    angle is the old one plus [dt] times the new velocity; the motor
    torque [(torqueCommand / 100) * maxTorqueCapacity * 0.5] acts on joint
    1 only, and the damping is [friction * 5 * chassisFactor], where
    [chassisFactor] is 0.8 with a "Chassis" component installed and 1.0
    without. *)
Theorem render_forward_euler
    (gravity friction torqueCommand : R)
    (installed : gmap string RoboticComponent) (sim : JointState) :
  let dt := 0.016 in
  let chassisFactor := if decide (is_Some (installed !! "Chassis"%string)) then 0.8 else 1.0 in
  let damping := friction * 5 * chassisFactor in
  let appliedTorque := (torqueCommand / 100) * maxTorqueCapacity installed * 0.5 in
  let sim' := render gravity friction torqueCommand installed sim in
  omega1 sim' = omega1 sim + dt * (appliedTorque - gravity * sin (theta1 sim) - omega1 sim * damping)
  /\ theta1 sim' = theta1 sim + dt * omega1 sim'
  /\ omega2 sim' = omega2 sim + dt * (- gravity * sin (theta2 sim) - omega2 sim * damping)
  /\ theta2 sim' = theta2 sim + dt * omega2 sim'.
Proof.
  intros dt chassisFactor damping appliedTorque sim'.
  assert (Hc : chassisEffect installed = chassisFactor).
  { unfold chassisEffect, chassisFactor.
    destruct (installed !! "Chassis"%string) as [c|] eqn:E.
    - rewrite decide_True; [reflexivity | eauto].
    - rewrite decide_False; [reflexivity | intros [x Hx]; discriminate]. }
  subst sim'. unfold render. cbn [omega1 theta1 omega2 theta2].
  rewrite Hc. fold damping. fold appliedTorque. fold dt.
  repeat split; ring.
Qed.

Lemma physicsFrame_frozen (a : AppState) :
  isEmergencyStopped a = true \/ simRunning a = false -> physicsFrame a = a.
Proof.
  intros H. unfold physicsFrame.
  destruct H as [-> | ->]; [ | rewrite orb_true_r ]; cbn.
  - by rewrite orb_true_r.
  - reflexivity.
Qed.

(** C2.  While the emergency stop is active or the simulation is not
    running, any number of animation frames leaves the joint state (and
    the rest of the state) as it is: a pause, not a reset. *)
Theorem physicsFrames_frozen (n : nat) (a : AppState) :
  isEmergencyStopped a = true \/ simRunning a = false ->
  simRef (physicsFrames n a) = simRef a /\ physicsFrames n a = a.
Proof.
  intros H.
  assert (Hn : physicsFrames n a = a).
  { induction n as [|n IH]; [reflexivity|].
    unfold physicsFrames in *. rewrite Nat.iter_succ, IH.
    by apply physicsFrame_frozen. }
  by rewrite Hn.
Qed.

Lemma physicsFrames_frozen_witness :
  simRef (physicsFrames 60 haltedApp) = movingJoints
  /\ physicsFrames 60 haltedApp = haltedApp.
Proof. apply (physicsFrames_frozen 60 haltedApp). left. reflexivity. Defined.

(** The equipment of the start-up state: no chassis, and an actuator
    rated "360 Nm Peak". *)
Lemma chassisEffect_initial : chassisEffect initialComponents = 1.0.
Proof. reflexivity. Qed.

Lemma maxTorqueCapacity_initial : maxTorqueCapacity initialComponents = 360.
Proof. reflexivity. Qed.

Lemma sin_PI4_pos : 0 < sin (PI / 4).
Proof. apply sin_gt_0; pose proof PI_RGT_0; lra. Qed.

(** The first tick of the scenario of C4, in closed form. *)
Lemma first_tick_closed_form :
  render 9.8 0.1 0 initialComponents initialJointState =
  {| theta1 := PI / 4 + 0.016 * (0.016 * (0 - 9.8 * sin (PI / 4) - 0 * 0.5));
     omega1 := 0.016 * (0 - 9.8 * sin (PI / 4) - 0 * 0.5);
     theta2 := PI / 6 + 0.016 * (0.016 * (0 - 9.8 * sin (PI / 6) - 0 * 0.5));
     omega2 := 0.016 * (0 - 9.8 * sin (PI / 6) - 0 * 0.5) |}.
Proof.
  unfold render. rewrite chassisEffect_initial, maxTorqueCapacity_initial.
  cbn [theta1 omega1 theta2 omega2 initialJointState].
  f_equal; lra.
Qed.

(** C4, as stated, fails: after the first tick from the initial state
    with gravity 9.8, friction 0.1, no torque and the "360 Nm Peak"
    actuator, [theta1] is not [π/4 + 0.016*(0 - 9.8*sin(π/4) - 0*0.5)].
    That value is [π/4 + omega1'], without the factor [dt] of the angle
    update. *)
Lemma first_tick_theta1_not_as_stated :
  let sim' := render 9.8 0.1 0 initialComponents initialJointState in
  ~ (theta1 sim' < PI / 4
     /\ omega1 sim' < 0
     /\ theta1 sim' = PI / 4 + 0.016 * (0 - 9.8 * sin (PI / 4) - 0 * 0.5)).
Proof.
  intros sim'. subst sim'. rewrite first_tick_closed_form.
  cbn [theta1 omega1]. pose proof sin_PI4_pos as Hsin. intros (_ & _ & Heq). lra.
Qed.

(** C4, amended.  In that scenario [omega1] becomes
    [0.016*(0 - 9.8*sin(π/4) - 0*0.5)], which is negative, and [theta1]
    becomes [π/4 + 0.016 * omega1'], which is below [π/4]. *)
Theorem first_tick_from_rest :
  let sim' := render 9.8 0.1 0 initialComponents initialJointState in
  omega1 sim' = 0.016 * (0 - 9.8 * sin (PI / 4) - 0 * 0.5)
  /\ theta1 sim' = PI / 4 + 0.016 * omega1 sim'
  /\ omega1 sim' < 0
  /\ theta1 sim' < PI / 4.
Proof.
  intros sim'. subst sim'. rewrite first_tick_closed_form.
  cbn [theta1 omega1]. pose proof sin_PI4_pos.
  repeat split; lra.
Qed.

(** C5.  An installed actuator whose spec has no leading integer
    ([parseInt] gives [NaN]) leaves the torque capacity at its default,
    100; [maxTorqueCapacity] is a total function, so nothing is raised. *)
Theorem maxTorqueCapacity_unparsable
    (installed : gmap string RoboticComponent) (actuator : RoboticComponent) :
  installed !! "Actuator"%string = Some actuator ->
  parseInt (spec actuator) = None ->
  maxTorqueCapacity installed = 100.
Proof.
  intros Hact Hnan. unfold maxTorqueCapacity. rewrite Hact, Hnan.
  by destruct (includes "Nm" (spec actuator)).
Qed.

Lemma maxTorqueCapacity_unparsable_witness :
  includes "Nm" (spec unratedServo) = true
  /\ maxTorqueCapacity (<["Actuator"%string := unratedServo]> initialComponents) = 100.
Proof.
  split; [reflexivity|].
  apply (maxTorqueCapacity_unparsable _ unratedServo); reflexivity.
Defined.

(** C8.  "Reset Vectors" puts [simRef] back to the initial joint state,
    whatever it held. *)
Theorem resetVectors_initial (sim : JointState) :
  resetVectors sim = {| theta1 := PI / 4; omega1 := 0; theta2 := PI / 6; omega2 := 0 |}.
Proof. reflexivity. Qed.

(** C10.  The leading integer of the actuator's spec is looked at only
    when the spec mentions "Nm": without "Nm" the capacity is 100
    whatever [parseInt] would return. *)
Theorem maxTorqueCapacity_without_Nm
    (installed : gmap string RoboticComponent) (actuator : RoboticComponent) :
  installed !! "Actuator"%string = Some actuator ->
  includes "Nm" (spec actuator) = false ->
  maxTorqueCapacity installed = 100.
Proof.
  intros Hact Hnm. unfold maxTorqueCapacity. by rewrite Hact, Hnm.
Qed.

Lemma maxTorqueCapacity_without_Nm_witness :
  parseInt (spec topsActuator) = Some 275%Z
  /\ maxTorqueCapacity (<["Actuator"%string := topsActuator]> initialComponents) = 100.
Proof.
  split; [reflexivity|].
  apply (maxTorqueCapacity_without_Nm _ topsActuator); reflexivity.
Defined.

(** ** The health overlay *)

Section HealthFacts.
Variable generateContent : string -> outcome (option string).
Variable JSON_parse : string -> outcome json.

Local Abbreviation analyzeHealth :=
  (analyzeTelemetryHealth generateContent JSON_parse).
Local Abbreviation analyzeStep := (analyzeOne generateContent JSON_parse).
Local Abbreviation analyzeOverlay := (analyzeAll generateContent JSON_parse).
Local Abbreviation entryFor := (entryOf generateContent JSON_parse).

(** The [catch] block absorbs every failure: the service throwing and
    [JSON.parse] throwing alike. *)
Lemma analyzeTelemetryHealth_returns (telemetry : string) :
  exists v, analyzeHealth telemetry = Returns v.
Proof.
  unfold analyzeTelemetryHealth.
  destruct (bindOutcome _ _) as [v|]; cbn; eauto.
Qed.

Lemma analyzeTelemetryHealth_offline (telemetry : string) :
  generateContent (contentsOf telemetry) = Throws ->
  analyzeHealth telemetry = Returns (JObj offlineRecord).
Proof.
  intros Hfail. unfold analyzeTelemetryHealth.
  fold (contentsOf telemetry). by rewrite Hfail.
Qed.

Lemma analyzeOne_installed installed prev type comp :
  installed !! type = Some comp ->
  analyzeStep installed (Returns prev) type
  = Returns (<[type := entryFor comp type]> prev).
Proof.
  intros Hcomp. unfold analyzeOne, entryOf. cbn. rewrite Hcomp. cbn.
  fold (telemetryOf comp type).
  by destruct (analyzeTelemetryHealth_returns (telemetryOf comp type)) as [v ->].
Qed.

(** The second loop of [analyzeAll] over installed slots: it ends
    normally, every slot it visits holds its entry, the others are
    untouched. *)
Lemma analyzeOne_foldl installed (types : list string) :
  (forall type, type ∈ types -> is_Some (installed !! type)) ->
  forall prev, exists overlay,
    foldl (analyzeStep installed) (Returns prev) types = Returns overlay
    /\ forall type,
         overlay !! type =
         if decide (type ∈ types)
         then comp ← installed !! type; Some (entryFor comp type)
         else prev !! type.
Proof.
  induction types as [|t types IH]; intros Hin prev.
  - exists prev. split; [reflexivity|]. intros type.
    rewrite decide_False; [reflexivity | apply not_elem_of_nil].
  - destruct (Hin t) as [comp Hcomp]; [left|].
    cbn [foldl]. rewrite (analyzeOne_installed _ _ _ _ Hcomp).
    destruct (IH (fun ty H => Hin ty (list_elem_of_further _ _ _ H))
                 (<[t := entryFor comp t]> prev)) as (overlay & Hrun & Hlook).
    exists overlay. split; [exact Hrun|]. intros type. rewrite Hlook.
    destruct (decide (type ∈ types)) as [Hty|Hty].
    + rewrite decide_True; [reflexivity | by right].
    + destruct (decide (type = t)) as [->|Hne].
      * rewrite decide_True by left. rewrite lookup_insert_eq, Hcomp. reflexivity.
      * rewrite decide_False; [by rewrite lookup_insert_ne|].
        rewrite elem_of_cons. intros [?|?]; contradiction.
Qed.

Lemma Object_keys_installed (installed : gmap string RoboticComponent) type :
  type ∈ Object_keys installed <-> is_Some (installed !! type).
Proof.
  unfold Object_keys. rewrite list_elem_of_fmap. split.
  - intros ([k comp] & -> & Hin). apply elem_of_map_to_list in Hin. eauto.
  - intros [comp Hcomp]. exists (type, comp). split; [reflexivity|].
    by apply elem_of_map_to_list.
Qed.

Lemma analyzeAll_overlay installed :
  exists overlay,
    analyzeOverlay installed = Returns overlay
    /\ forall type, overlay !! type = comp ← installed !! type; Some (entryFor comp type).
Proof.
  unfold analyzeAll.
  destruct (analyzeOne_foldl installed (Object_keys installed)
              (fun ty H => proj1 (Object_keys_installed installed ty) H)
              (foldl (fun results type => <[type := scanningRecord]> results) ∅
                     (Object_keys installed)))
    as (overlay & Hrun & Hlook).
  exists overlay. split; [exact Hrun|]. intros type. rewrite Hlook.
  destruct (decide (type ∈ Object_keys installed)) as [Hin|Hout]; [reflexivity|].
  destruct (installed !! type) as [comp|] eqn:Hcomp.
  - exfalso. apply Hout. apply Object_keys_installed. eauto.
  - cbn. clear Hlook Hrun.
    assert (Hfold : forall (l : list string) (m : gmap string (gmap string json)),
               type ∉ l -> m !! type = None ->
               foldl (fun results ty => <[ty := scanningRecord]> results) m l !! type = None).
    { induction l as [|x l IHl]; intros m Hl Hm; [exact Hm|].
      cbn [foldl]. apply IHl.
      - intros ?. apply Hl. by right.
      - rewrite lookup_insert_ne; [exact Hm|]. intros ->. apply Hl. left. }
    apply Hfold; [exact Hout | apply lookup_empty].
Qed.
End HealthFacts.

(** C9.  When the analysis service fails on the request made for an
    installed component, [analyzeTelemetryHealth] returns the fixed
    record [{healthScore: 50, state: "Unknown", briefAnalysis: "Analysis
    engine offline.", nextCalibration: "Immediate"}] instead of throwing,
    [analyzeAll] runs to its end, and the overlay entry of that component
    is this record (with the [isScanning] flag [analyzeAll] adds, set to
    [false]). *)
Theorem analysis_failure_falls_back
    (generateContent : string -> outcome (option string))
    (JSON_parse : string -> outcome json)
    (installed : gmap string RoboticComponent)
    (type : string) (comp : RoboticComponent) :
  installed !! type = Some comp ->
  generateContent (contentsOf (telemetryOf comp type)) = Throws ->
  analyzeTelemetryHealth generateContent JSON_parse (telemetryOf comp type)
  = Returns (JObj offlineRecord)
  /\ exists overlay,
       analyzeAll generateContent JSON_parse installed = Returns overlay
       /\ overlay !! type
          = Some (<["isScanning"%string := JBool false]> offlineRecord).
Proof.
  intros Hcomp Hfail.
  pose proof (analyzeTelemetryHealth_offline generateContent JSON_parse _ Hfail) as Hoff.
  split; [exact Hoff|].
  destruct (analyzeAll_overlay generateContent JSON_parse installed)
    as (overlay & Hrun & Hlook).
  exists overlay. split; [exact Hrun|].
  rewrite Hlook, Hcomp. cbn. unfold entryOf. by rewrite Hoff.
Qed.

Lemma analysis_failure_falls_back_witness :
  analyzeTelemetryHealth serviceDown parserUnused
    (telemetryOf torqueMotor "Actuator")
  = Returns (JObj offlineRecord)
  /\ exists overlay,
       analyzeAll serviceDown parserUnused initialComponents = Returns overlay
       /\ overlay !! "Actuator"%string
          = Some (<["isScanning"%string := JBool false]> offlineRecord).
Proof.
  apply (analysis_failure_falls_back serviceDown parserUnused initialComponents
           "Actuator" torqueMotor);
    reflexivity.
Defined.

(** ** The weld-spatter particle pool *)

Lemma readF32_insert_ne (arr : list (option R)) (i j : nat) (v : option R) :
  i <> j -> readF32 (<[i := v]> arr) j = readF32 arr j.
Proof. intros Hne. unfold readF32. by rewrite list_lookup_insert_ne. Qed.

Lemma readF32_insert_eq (arr : list (option R)) (i : nat) (v : option R) :
  (i < length arr)%nat -> readF32 (<[i := v]> arr) i = v.
Proof. intros Hlt. unfold readF32. by rewrite list_lookup_insert_eq. Qed.

Lemma readF32_Some (arr : list (option R)) (i : nat) (x : R) :
  readF32 arr i = Some x -> arr !! i = Some (Some x) /\ (i < length arr)%nat.
Proof.
  unfold readF32. destruct (arr !! i) as [v|] eqn:E; cbn; [|discriminate].
  intros ->. split; [reflexivity|]. by eapply lookup_lt_Some.
Qed.

Lemma numLe_Some_true (x y : R) : x <= y -> numLe (Some x) y = true.
Proof. intros H. unfold numLe. by destruct (Rle_dec x y). Qed.

Lemma numLe_Some_false (x y : R) : y < x -> numLe (Some x) y = false.
Proof. intros H. unfold numLe. destruct (Rle_dec x y); [lra | reflexivity]. Qed.

Lemma numLt_Some_true (x y : R) : x < y -> numLt (Some x) y = true.
Proof. intros H. unfold numLt. by destruct (Rlt_dec x y). Qed.

(** *** The loop body on one slot *)

(** A free slot under the budget whose roll succeeds is activated at
    the tool tip; four random numbers are used. *)
Example sparkStep_spawns :
  sparkStep (fun x => x) (fun _ => 0.25) 1 1.0 0 oneFreeSlot
  = {| positions := [Some 0; Some 0; Some 0.5]; lifes := [Some 1.0];
       vels := [Some (cos (0.25 * PI * 2) * (0.05 + 0.25 * 0.2));
                Some (sin (0.25 * PI * 2) * (0.05 + 0.25 * 0.2));
                Some (0.1 + 0.25 * 0.3)];
       spawned := 1; rng := 4 |}.
Proof.
  unfold sparkStep, oneFreeSlot. cbn [lifes spawned rng].
  change (readF32 [Some 0] 0) with (Some 0).
  rewrite numLe_Some_true by lra. cbn [Z.ltb Z.compare Pos.compare].
  destruct (Rlt_dec 0.25 0.3) as [_|Hroll]; [reflexivity | lra].
Qed.

(** With the budget used up the same slot is passed over, and no random
    number is drawn. *)
Example sparkStep_passes_over :
  sparkStep (fun x => x) (fun _ => 0.25) 0 1.0 0 oneFreeSlot = oneFreeSlot.
Proof.
  unfold sparkStep, oneFreeSlot. cbn [lifes spawned rng].
  change (readF32 [Some 0] 0) with (Some 0).
  by rewrite numLe_Some_true by lra.
Qed.

(** A slot that is alive moves by its velocity, is pulled down, ages,
    and is retired when it ends below the floor. *)
Example sparkStep_retires :
  sparkStep (fun x => x) (fun _ => 0.5) 1 1.0 0 oneFallingSlot
  = {| positions := [Some (0 + 0); Some (-1.45 + -0.1); Some (0.5 + 0)];
       lifes := [Some 0];
       vels := [Some 0; Some (-0.1 - 0.01); Some 0];
       spawned := 0; rng := 1 |}.
Proof.
  unfold sparkStep, oneFallingSlot. cbn [lifes spawned rng].
  change (readF32 [Some 0.8] 0) with (Some 0.8).
  rewrite numLe_Some_false by lra.
  unfold advanceSpark, storeF32. cbn [positions lifes vels rng spawned].
  change (numLt _ (-1.5)) with (numLt (Some (-1.45 + -0.1)) (-1.5)).
  rewrite numLt_Some_true by lra. reflexivity.
Qed.

(** *** The clearing loop *)

Lemma clearLoop_length (n i : nat) (lifes : list (option R)) :
  length (clearLoop n i lifes) = length lifes.
Proof.
  revert i lifes. induction n as [|n IH]; intros i lifes; [reflexivity|].
  cbn [clearLoop]. by rewrite IH, length_insert.
Qed.

Lemma clearLoop_lookup (n i j : nat) (lifes : list (option R)) :
  clearLoop n i lifes !! j =
  if decide (i <= j < i + n /\ j < length lifes)%nat then Some (Some 0) else lifes !! j.
Proof.
  revert i lifes. induction n as [|n IH]; intros i lifes.
  - cbn [clearLoop]. rewrite decide_False; [reflexivity | lia].
  - cbn [clearLoop]. rewrite IH, length_insert.
    destruct (decide (j = i)) as [->|Hne].
    + destruct (decide (i < length lifes)%nat) as [Hlt|Hge].
      * rewrite list_lookup_insert_eq by exact Hlt.
        rewrite (decide_True (P := (i <= i < i + S n /\ _)%nat)) by lia.
        by destruct (decide _).
      * rewrite !decide_False by lia. rewrite list_insert_ge; [reflexivity | lia].
    + rewrite list_lookup_insert_ne by done.
      destruct (decide (S i <= j < S i + n /\ j < length lifes)%nat).
      * rewrite decide_True; [reflexivity | lia].
      * rewrite decide_False; [reflexivity | lia].
Qed.

Lemma clearLoop_all (lifes : list (option R)) :
  clearLoop (length lifes) 0 lifes = replicate (length lifes) (Some 0).
Proof.
  apply list_eq. intros j. rewrite clearLoop_lookup.
  destruct (decide (j < length lifes)%nat) as [Hlt|Hge].
  - rewrite decide_True by lia. symmetry. by apply lookup_replicate_2.
  - rewrite decide_False by lia.
    rewrite lookup_ge_None_2 by lia. symmetry.
    apply lookup_ge_None_2. rewrite length_replicate. lia.
Qed.

(** C6.  When the spatter is not active (the simulation is not running,
    or the emergency stop is on, or no tool is installed), one frame sets
    the life of each of the 800 slots to 0, whatever it was. *)
Theorem spatterUpdate_clears
    (fround : R -> R) (random : nat -> R)
    (isRunningNow isEStoppedNow hasTool : bool) (density lifeMult : R)
    (sp : Spatter) :
  length (aLife sp) = MAX_SPARKS ->
  isRunningNow && negb isEStoppedNow && hasTool = false ->
  exists sp',
    spatterUpdate fround random isRunningNow isEStoppedNow hasTool density lifeMult (Some sp)
    = Some sp'
    /\ aLife sp' = replicate MAX_SPARKS (Some 0)
    /\ forall i, (i < MAX_SPARKS)%nat -> aLife sp' !! i = Some (Some 0).
Proof.
  intros Hlen Hoff. unfold spatterUpdate. rewrite Hoff.
  eexists. split; [reflexivity|]. cbn [aLife].
  assert (Hall : clearLoop MAX_SPARKS 0 (aLife sp) = replicate MAX_SPARKS (Some 0)).
  { rewrite <- Hlen. apply clearLoop_all. }
  split; [exact Hall|].
  intros i Hi. rewrite Hall. by apply lookup_replicate_2.
Qed.

Lemma spatterUpdate_clears_witness :
  exists sp',
    spatterUpdate (fun x => x) rollsFailThenPass true true true 1.0 1.0 (Some allAlive)
    = Some sp'
    /\ aLife sp' = replicate MAX_SPARKS (Some 0)
    /\ forall i, (i < MAX_SPARKS)%nat -> aLife sp' !! i = Some (Some 0).
Proof.
  apply (spatterUpdate_clears (fun x => x) rollsFailThenPass true true true 1.0 1.0 allAlive).
  - apply length_replicate.
  - reflexivity.
Defined.

(** *** The spawn loop: what an iteration leaves alone *)

Section SpatterFacts.
Variable fround : R -> R.
Variable random : nat -> R.

Local Abbreviation step := (sparkStep fround random).
Local Abbreviation loop := (sparkLoop fround random).
Local Abbreviation advance := (advanceSpark fround random).
Local Abbreviation spawn := (spawnSpark fround random).

Lemma sparkLoop_app (rate : Z) (lm : R) (n m i : nat) (s : SparkLoop) :
  loop rate lm (n + m) i s = loop rate lm m (i + n) (loop rate lm n i s).
Proof.
  revert i s. induction n as [|n IH]; intros i s.
  - cbn. by rewrite Nat.add_0_r.
  - cbn [Nat.add sparkLoop]. rewrite IH. f_equal. lia.
Qed.

Lemma sparkLoop_snoc (rate : Z) (lm : R) (n i : nat) (s : SparkLoop) :
  loop rate lm (S n) i s = step rate lm (i + n) (loop rate lm n i s).
Proof. replace (S n) with (n + 1)%nat by lia. by rewrite sparkLoop_app. Qed.

(** The iteration for slot [i] writes [lifes[i]] only. *)
Lemma sparkStep_lifes_ne (rate : Z) (lm : R) (i j : nat) (s : SparkLoop) :
  i <> j -> lifes (step rate lm i s) !! j = lifes s !! j.
Proof.
  intros Hne. unfold sparkStep, spawnSpark, advanceSpark, storeF32.
  repeat match goal with
         | |- context [if ?b then _ else _] => destruct b
         end;
    cbn [lifes]; rewrite ?list_lookup_insert_ne by done; reflexivity.
Qed.

Lemma sparkStep_lifes_length (rate : Z) (lm : R) (i : nat) (s : SparkLoop) :
  length (lifes (step rate lm i s)) = length (lifes s).
Proof.
  unfold sparkStep, spawnSpark, advanceSpark, storeF32.
  repeat match goal with
         | |- context [if ?b then _ else _] => destruct b
         end;
    cbn [lifes]; rewrite ?length_insert; reflexivity.
Qed.

(** ... and the three entries of [positions] from [3 i] on. *)
Lemma sparkStep_positions_ne (rate : Z) (lm : R) (i k : nat) (s : SparkLoop) :
  (k < i * 3 \/ i * 3 + 3 <= k)%nat ->
  positions (step rate lm i s) !! k = positions s !! k.
Proof.
  intros Hk. unfold sparkStep, spawnSpark, advanceSpark, storeF32.
  repeat match goal with
         | |- context [if ?b then _ else _] => destruct b
         end;
    cbn [positions]; rewrite ?list_lookup_insert_ne by lia; reflexivity.
Qed.

Lemma sparkLoop_lifes_ne (rate : Z) (lm : R) (n i j : nat) (s : SparkLoop) :
  (j < i \/ i + n <= j)%nat -> lifes (loop rate lm n i s) !! j = lifes s !! j.
Proof.
  revert i s. induction n as [|n IH]; intros i s Hj; [reflexivity|].
  cbn [sparkLoop]. rewrite IH by lia. apply sparkStep_lifes_ne. lia.
Qed.

Lemma sparkLoop_lifes_length (rate : Z) (lm : R) (n i : nat) (s : SparkLoop) :
  length (lifes (loop rate lm n i s)) = length (lifes s).
Proof.
  revert i s. induction n as [|n IH]; intros i s; [reflexivity|].
  cbn [sparkLoop]. by rewrite IH, sparkStep_lifes_length.
Qed.

Lemma sparkLoop_positions_ne (rate : Z) (lm : R) (n i k : nat) (s : SparkLoop) :
  (k < i * 3 \/ (i + n) * 3 <= k)%nat ->
  positions (loop rate lm n i s) !! k = positions s !! k.
Proof.
  revert i s. induction n as [|n IH]; intros i s Hk; [reflexivity|].
  cbn [sparkLoop]. rewrite IH by lia. apply sparkStep_positions_ne. lia.
Qed.

(** *** Retirement below the floor *)

(** A slot that is alive takes the [else] branch. *)
Lemma sparkStep_alive (rate : Z) (lm : R) (i : nat) (s : SparkLoop) (life : R) :
  lifes s !! i = Some (Some life) -> 0 < life ->
  step rate lm i s = advance lm i s.
Proof.
  intros Hlife Hpos. unfold sparkStep.
  assert (Hread : readF32 (lifes s) i = Some life).
  { unfold readF32. by rewrite Hlife. }
  rewrite Hread. by rewrite numLe_Some_false.
Qed.

(** In the [else] branch, a spark whose new [position.y] is below -1.5
    ends with life 0. *)
Lemma advanceSpark_floor (lm : R) (i : nat) (s : SparkLoop) (y : R) :
  (i < length (lifes s))%nat ->
  readF32 (positions (advance lm i s)) (i * 3 + 1) = Some y -> y < -1.5 ->
  lifes (advance lm i s) !! i = Some (Some 0).
Proof.
  intros Hi Hy Hlow. unfold advanceSpark in *. cbn [positions lifes] in *.
  rewrite Hy, (numLt_Some_true _ _ Hlow).
  apply list_lookup_insert_eq. unfold storeF32. by rewrite length_insert.
Qed.

Lemma sparkLoop_floor (rate : Z) (lm : R) (n i : nat) (s : SparkLoop) (life y : R) :
  (i < n)%nat ->
  lifes s !! i = Some (Some life) -> 0 < life ->
  readF32 (positions (loop rate lm n 0 s)) (i * 3 + 1) = Some y -> y < -1.5 ->
  lifes (loop rate lm n 0 s) !! i = Some (Some 0).
Proof.
  intros Hin Hlife Hpos Hy Hlow.
  replace n with (i + S (n - S i))%nat in * by lia.
  rewrite sparkLoop_app in *. cbn [Nat.add sparkLoop] in *.
  set (s1 := loop rate lm i 0 s) in *.
  assert (Hlife1 : lifes s1 !! i = Some (Some life)).
  { subst s1. rewrite sparkLoop_lifes_ne by lia. exact Hlife. }
  rewrite (sparkStep_alive _ _ _ _ _ Hlife1 Hpos) in *.
  rewrite sparkLoop_lifes_ne by lia.
  unfold readF32 in Hy. rewrite sparkLoop_positions_ne in Hy by lia.
  eapply advanceSpark_floor; [by eapply lookup_lt_Some | exact Hy | exact Hlow].
Qed.
End SpatterFacts.

(** *** One active frame *)

Lemma spatterTick_unfold fround random density lifeMult sp :
  spatterTick fround random density lifeMult sp
  = sparkLoop fround random (Zfloor (density * 20)) lifeMult MAX_SPARKS 0 (loopStart sp).
Proof. reflexivity. Qed.

Lemma spatterUpdate_active fround random density lifeMult sp :
  spatterUpdate fround random true false true density lifeMult (Some sp)
  = Some {| position := positions (spatterTick fround random density lifeMult sp);
            aLife := lifes (spatterTick fround random density lifeMult sp);
            aVelocity := vels (spatterTick fround random density lifeMult sp) |}.
Proof. reflexivity. Qed.

Lemma position_mk p l v : position (mkSpatter p l v) = p.
Proof. reflexivity. Qed.
Lemma aLife_mk p l v : aLife (mkSpatter p l v) = l.
Proof. reflexivity. Qed.
Lemma aVelocity_mk p l v : aVelocity (mkSpatter p l v) = v.
Proof. reflexivity. Qed.

(** No frame resizes the life buffer: it keeps the [MAX_SPARKS] entries
    it was allocated with. *)
Lemma spatterUpdate_aLife_length
    (fround : R -> R) (random : nat -> R)
    (isRunningNow isEStoppedNow hasTool : bool) (density lifeMult : R)
    (sp sp' : Spatter) :
  spatterUpdate fround random isRunningNow isEStoppedNow hasTool density lifeMult (Some sp)
  = Some sp' ->
  length (aLife sp') = length (aLife sp).
Proof.
  unfold spatterUpdate.
  destruct (isRunningNow && negb isEStoppedNow && hasTool);
    intros Hrun; apply (inj Some) in Hrun; subst sp'; rewrite aLife_mk.
  - rewrite spatterTick_unfold. apply sparkLoop_lifes_length.
  - apply clearLoop_length.
Qed.

(** C7.  In a frame in which the spatter is active, a spark that was
    alive (life above 0) and whose [position.y], once advanced, is below
    -1.5 ends the frame with life exactly 0, whatever its life was. *)
Theorem spark_below_floor_retired
    (fround : R -> R) (random : nat -> R) (density lifeMult : R)
    (sp sp' : Spatter) (i : nat) (life y : R) :
  (i < MAX_SPARKS)%nat ->
  aLife sp !! i = Some (Some life) ->
  0 < life ->
  spatterUpdate fround random true false true density lifeMult (Some sp) = Some sp' ->
  readF32 (position sp') (i * 3 + 1) = Some y ->
  y < -1.5 ->
  aLife sp' !! i = Some (Some 0).
Proof.
  intros Hi Hlife Hpos Hrun Hy Hlow.
  rewrite spatterUpdate_active in Hrun.
  apply (inj Some) in Hrun. subst sp'.
  rewrite aLife_mk. rewrite position_mk in Hy.
  rewrite spatterTick_unfold in *.
  exact (sparkLoop_floor fround random _ lifeMult MAX_SPARKS i (loopStart sp) life y
           Hi Hlife Hpos Hy Hlow).
Qed.

Lemma MAX_SPARKS_split : MAX_SPARKS = (1 + 799)%nat.
Proof. reflexivity. Qed.

(** The first spark of [sunkenSpark] after one active frame: it has
    not moved, since its velocity is zero. *)
Lemma sunkenSpark_position_after :
  readF32 (positions (spatterTick (fun x => x) rollsFailThenPass 1.0 1.0 sunkenSpark))
          (0 * 3 + 1)
  = Some (-1.6 + 0).
Proof.
  rewrite spatterTick_unfold, MAX_SPARKS_split, sparkLoop_app.
  unfold readF32. rewrite sparkLoop_positions_ne by lia.
  cbn [sparkLoop].
  erewrite sparkStep_alive with (life := 1); [ | reflexivity | lra ].
  reflexivity.
Qed.

Lemma spark_below_floor_retired_witness :
  aLife {| position := positions (spatterTick (fun x => x) rollsFailThenPass 1.0 1.0 sunkenSpark);
           aLife := lifes (spatterTick (fun x => x) rollsFailThenPass 1.0 1.0 sunkenSpark);
           aVelocity := vels (spatterTick (fun x => x) rollsFailThenPass 1.0 1.0 sunkenSpark) |}
    !! 0%nat
  = Some (Some 0).
Proof.
  apply (spark_below_floor_retired (fun x => x) rollsFailThenPass 1.0 1.0 sunkenSpark _
           0 1 (-1.6 + 0)).
  - unfold MAX_SPARKS. lia.
  - reflexivity.
  - lra.
  - apply spatterUpdate_active.
  - rewrite position_mk. exact sunkenSpark_position_after.
  - lra.
Defined.

(** *** The spawn counter *)

Section SpawnFacts.
Variable fround : R -> R.
Variable random : nat -> R.

Local Abbreviation step := (sparkStep fround random).
Local Abbreviation loop := (sparkLoop fround random).

(** An iteration leaves [spawned] as it is or, below the budget, adds
    one. *)
Lemma sparkStep_spawned (rate : Z) (lm : R) (i : nat) (s : SparkLoop) :
  spawned (step rate lm i s) = spawned s
  \/ ((spawned s < rate)%Z /\ spawned (step rate lm i s) = (spawned s + 1)%Z).
Proof.
  unfold sparkStep, spawnSpark, advanceSpark.
  destruct (numLe _ 0); [|left; reflexivity].
  destruct (spawned s <? rate)%Z eqn:Hlt; [|left; reflexivity].
  apply Z.ltb_lt in Hlt.
  destruct (Rlt_dec _ 0.3); [right; split; [exact Hlt | reflexivity] | left; reflexivity].
Qed.

Lemma sparkLoop_spawned_bounds (rate : Z) (lm : R) (n i : nat) (s : SparkLoop) :
  (0 <= spawned s <= Z.max 0 rate)%Z ->
  (spawned s <= spawned (loop rate lm n i s) <= Z.max 0 rate)%Z.
Proof.
  revert i s. induction n as [|n IH]; intros i s Hs; [cbn; lia|].
  cbn [sparkLoop].
  destruct (sparkStep_spawned rate lm i s) as [Heq | [Hlt Heq]];
    specialize (IH (S i) (step rate lm i s)); lia.
Qed.

(** The counter advances exactly when the slot, free before the
    iteration, is alive after it. *)
Lemma sparkStep_activated (rate : Z) (lm : R) (i : nat) (s : SparkLoop) :
  spawned (step rate lm i s)
  = (spawned s
     + if numLe (readF32 (lifes s) i) 0
          && negb (numLe (readF32 (lifes (step rate lm i s)) i) 0)
       then 1 else 0)%Z.
Proof.
  unfold sparkStep.
  destruct (numLe (readF32 (lifes s) i) 0) eqn:Hfree; cbn [andb]; [|cbn; lia].
  destruct (spawned s <? rate)%Z; [|rewrite Hfree; cbn; lia].
  destruct (Rlt_dec _ 0.3); cbn [lifes spawned spawnSpark].
  - assert (Hi : (i < length (lifes s))%nat).
    { unfold numLe in Hfree. destruct (readF32 (lifes s) i) as [x|] eqn:E; [|discriminate].
      by apply readF32_Some in E as [_ ?]. }
    rewrite readF32_insert_eq by exact Hi.
    rewrite numLe_Some_false by lra. reflexivity.
  - rewrite Hfree. cbn. lia.
Qed.

Lemma activatedBelow_S (n : nat) (before after : list (option R)) :
  activatedBelow (S n) before after
  = activatedBelow n before after
    ++ (if numLe (readF32 before n) 0 && negb (numLe (readF32 after n) 0)
        then [n] else []).
Proof.
  unfold activatedBelow. rewrite seq_S, List.filter_app. cbn [List.filter Nat.add].
  by destruct (_ && _).
Qed.

Lemma activatedBelow_ext (n : nat) (before after after' : list (option R)) :
  (forall j, (j < n)%nat -> after' !! j = after !! j) ->
  activatedBelow n before after' = activatedBelow n before after.
Proof.
  intros Hsame. unfold activatedBelow. apply List.filter_ext_in.
  intros j Hj. apply in_seq in Hj. unfold readF32. rewrite Hsame by lia. reflexivity.
Qed.

Lemma activatedBelow_same (n : nat) (l : list (option R)) :
  activatedBelow n l l = [].
Proof.
  unfold activatedBelow. induction (seq 0 n) as [|j js IH]; [reflexivity|].
  cbn [List.filter]. by destruct (numLe (readF32 l j) 0).
Qed.

(** After [n] iterations from slot 0 the counter has grown by the
    number of slots activated so far. *)
Lemma sparkLoop_activated (rate : Z) (lm : R) (n : nat) (s : SparkLoop) :
  spawned (loop rate lm n 0 s)
  = (spawned s
     + Z.of_nat (length (activatedBelow n (lifes s) (lifes (loop rate lm n 0 s)))))%Z.
Proof.
  induction n as [|n IH]; [cbn; lia|].
  rewrite sparkLoop_snoc. cbn [Nat.add].
  set (sn := loop rate lm n 0 s) in *.
  rewrite sparkStep_activated, IH, activatedBelow_S, length_app.
  rewrite (activatedBelow_ext n _ (lifes sn) (lifes (step rate lm n sn))).
  2: { intros j Hj. apply sparkStep_lifes_ne. lia. }
  assert (Hn : readF32 (lifes sn) n = readF32 (lifes s) n).
  { unfold readF32. subst sn. by rewrite sparkLoop_lifes_ne by lia. }
  rewrite Hn. destruct (_ && _); cbn [length]; lia.
Qed.

(** *** The budget *)

(** Below the budget the bound plays no part in the iteration. *)
Lemma sparkStep_below (rate rate' : Z) (lm : R) (i : nat) (s : SparkLoop) :
  (spawned s < rate)%Z -> (rate <= rate')%Z ->
  step rate lm i s = step rate' lm i s.
Proof.
  intros Hlt Hle. unfold sparkStep.
  assert ((spawned s <? rate)%Z = true) as -> by (apply Z.ltb_lt; lia).
  assert ((spawned s <? rate')%Z = true) as -> by (apply Z.ltb_lt; lia).
  reflexivity.
Qed.

(** Two runs of the loop from the same state, with budgets
    [rate <= rate']: they agree until the smaller budget is used up, from
    then on the first counter stays there. *)
Lemma sparkLoop_budgets (rate rate' : Z) (lm : R) (n i : nat) (s s' : SparkLoop) :
  (rate <= rate')%Z ->
  (s = s' /\ (spawned s <= rate)%Z) \/ (spawned s = rate /\ (rate <= spawned s')%Z) ->
  let r := loop rate lm n i s in
  let r' := loop rate' lm n i s' in
  (r = r' /\ (spawned r <= rate)%Z) \/ (spawned r = rate /\ (rate <= spawned r')%Z).
Proof.
  intros Hle. revert i s s'. induction n as [|n IH]; intros i s s' Hinv; [exact Hinv|].
  cbn [sparkLoop]. apply IH.
  pose proof (sparkStep_spawned rate lm i s) as Hs.
  pose proof (sparkStep_spawned rate' lm i s') as Hs'.
  destruct Hinv as [[<- Hbelow] | [Hat Hover]].
  - destruct (decide (spawned s < rate)%Z) as [Hlt|Hge].
    + left. split; [by apply sparkStep_below | lia].
    + right. lia.
  - right. lia.
Qed.

(** A budget of at least the number of iterations never binds: the
    run is the same under any larger budget. *)
Lemma sparkLoop_unbounded (rate rate' : Z) (lm : R) (n i : nat) (s : SparkLoop) :
  (spawned s + Z.of_nat n <= rate)%Z -> (rate <= rate')%Z ->
  loop rate lm n i s = loop rate' lm n i s.
Proof.
  revert i s. induction n as [|n IH]; intros i s Hroom Hle; [reflexivity|].
  cbn [sparkLoop]. rewrite <- (sparkStep_below rate rate') by lia.
  apply IH; [|exact Hle].
  destruct (sparkStep_spawned rate lm i s) as [-> | [_ ->]]; lia.
Qed.

(** The loop from a fresh counter, with the budget [rate] and with a
    larger one. *)
Lemma sparkLoop_budget_summary (rate rate' : Z) (lm : R) (n : nat) (s : SparkLoop) :
  spawned s = 0%Z -> (0 <= rate <= rate')%Z ->
  let r := loop rate lm n 0 s in
  let r' := loop rate' lm n 0 s in
  Z.of_nat (length (activatedBelow n (lifes s) (lifes r))) = spawned r
  /\ (spawned r <= rate)%Z
  /\ Z.of_nat (length (activatedBelow n (lifes s) (lifes r'))) = spawned r'
  /\ spawned r = Z.min rate (spawned r').
Proof.
  intros Hzero Hrate r r'.
  pose proof (sparkLoop_activated rate lm n s) as Hr.
  pose proof (sparkLoop_activated rate' lm n s) as Hr'.
  pose proof (sparkLoop_spawned_bounds rate lm n 0 s) as Hb.
  pose proof (sparkLoop_budgets rate rate' lm n 0 s s (proj2 Hrate)) as Hmin.
  cbv zeta in Hmin. fold r in Hr, Hb, Hmin. fold r' in Hr', Hmin.
  rewrite Hzero in *.
  destruct Hmin as [[Heq Hle] | [Hat Hover]]; [left; split; [reflexivity | lia] | | ].
  - rewrite <- Heq in *. repeat split; lia.
  - repeat split; lia.
Qed.

(** *** Runs over free slots *)

Lemma freeRange_tail (i n : nat) (s s' : SparkLoop) :
  freeRange i (S n) s ->
  (forall j, i <> j -> lifes s' !! j = lifes s !! j) ->
  freeRange (S i) n s'.
Proof.
  intros Hfree Hsame j Hj. unfold readF32. rewrite Hsame by lia.
  apply Hfree. lia.
Qed.

(** Once the budget is used up, free slots are passed over: no roll, no
    change. *)
Lemma sparkLoop_idle (rate : Z) (lm : R) (n i : nat) (s : SparkLoop) :
  (rate <= spawned s)%Z -> freeRange i n s -> loop rate lm n i s = s.
Proof.
  revert i. induction n as [|n IH]; intros i Hfull Hfree; [reflexivity|].
  cbn [sparkLoop].
  assert (Hstep : step rate lm i s = s).
  { unfold sparkStep. rewrite Hfree by lia.
    by assert ((spawned s <? rate)%Z = false) as -> by (apply Z.ltb_ge; lia). }
  rewrite Hstep. apply IH; [exact Hfull|].
  by eapply freeRange_tail.
Qed.

(** Below the budget, a free slot whose roll fails costs one random
    number and changes nothing else. *)
Lemma sparkLoop_rolls_fail (rate : Z) (lm : R) (n i : nat) (s : SparkLoop) :
  (spawned s < rate)%Z -> freeRange i n s ->
  (forall c, (rng s <= c < rng s + n)%nat -> ~ random c < 0.3) ->
  loop rate lm n i s
  = {| positions := positions s; lifes := lifes s; vels := vels s;
       spawned := spawned s; rng := (rng s + n)%nat |}.
Proof.
  revert i s. induction n as [|n IH]; intros i s Hlt Hfree Hfail.
  - cbn [sparkLoop]. destruct s; cbn. f_equal. lia.
  - cbn [sparkLoop].
    assert (Hstep : step rate lm i s
                    = {| positions := positions s; lifes := lifes s; vels := vels s;
                         spawned := spawned s; rng := (rng s + 1)%nat |}).
    { unfold sparkStep. rewrite Hfree by lia.
      assert ((spawned s <? rate)%Z = true) as -> by (apply Z.ltb_lt; lia).
      destruct (Rlt_dec (random (rng s)) 0.3) as [Hroll|_]; [|reflexivity].
      exfalso. apply (Hfail (rng s)); [lia | exact Hroll]. }
    rewrite Hstep, IH; cbn [positions lifes vels spawned rng].
    + f_equal. lia.
    + exact Hlt.
    + eapply freeRange_tail; [exact Hfree | reflexivity].
    + intros c Hc. apply Hfail. lia.
Qed.

(** Below the budget, free slots whose rolls succeed are activated one
    after the other. *)
Lemma sparkLoop_rolls_pass (rate : Z) (lm : R) (n i : nat) (s : SparkLoop) :
  (spawned s + Z.of_nat n <= rate)%Z -> freeRange i n s ->
  (forall c, (rng s <= c)%nat -> random c < 0.3) ->
  spawned (loop rate lm n i s) = (spawned s + Z.of_nat n)%Z.
Proof.
  revert i s. induction n as [|n IH]; intros i s Hroom Hfree Hpass.
  - cbn [sparkLoop]. lia.
  - cbn [sparkLoop].
    assert (Hstep : step rate lm i s = spawnSpark fround random i s).
    { unfold sparkStep. rewrite Hfree by lia.
      assert ((spawned s <? rate)%Z = true) as -> by (apply Z.ltb_lt; lia).
      destruct (Rlt_dec (random (rng s)) 0.3) as [_|Hroll]; [reflexivity|].
      exfalso. apply Hroll, Hpass. lia. }
    rewrite IH; rewrite Hstep; cbn [spawned rng spawnSpark].
    + lia.
    + lia.
    + eapply freeRange_tail; [exact Hfree|].
      intros j Hj. unfold spawnSpark. cbn [lifes]. by rewrite list_lookup_insert_ne.
    + intros c Hc. apply Hpass. lia.
Qed.

(** *** The loop that counts attempts *)

Local Abbreviation attempts := (attemptLoop fround random).

Lemma attemptLoop_idle (rate : Z) (lm : R) (n i : nat) (s : SparkLoop) :
  (rate <= spawned s)%Z -> freeRange i n s -> attempts rate lm n i s = s.
Proof.
  revert i. induction n as [|n IH]; intros i Hfull Hfree; [reflexivity|].
  cbn [attemptLoop].
  assert (Hstep : attemptStep fround random rate lm i s = s).
  { unfold attemptStep. rewrite Hfree by lia.
    by assert ((spawned s <? rate)%Z = false) as -> by (apply Z.ltb_ge; lia). }
  rewrite Hstep. apply IH; [exact Hfull|].
  by eapply freeRange_tail.
Qed.

Lemma attemptLoop_rolls_fail (rate : Z) (lm : R) (n i : nat) (s : SparkLoop) :
  (spawned s + Z.of_nat n <= rate)%Z -> freeRange i n s ->
  (forall c, (rng s <= c < rng s + n)%nat -> ~ random c < 0.3) ->
  attempts rate lm n i s
  = {| positions := positions s; lifes := lifes s; vels := vels s;
       spawned := (spawned s + Z.of_nat n)%Z; rng := (rng s + n)%nat |}.
Proof.
  revert i s. induction n as [|n IH]; intros i s Hroom Hfree Hfail.
  - cbn [attemptLoop]. destruct s; cbn. f_equal; lia.
  - cbn [attemptLoop].
    assert (Hstep : attemptStep fround random rate lm i s
                    = {| positions := positions s; lifes := lifes s; vels := vels s;
                         spawned := (spawned s + 1)%Z; rng := (rng s + 1)%nat |}).
    { unfold attemptStep. rewrite Hfree by lia.
      assert ((spawned s <? rate)%Z = true) as -> by (apply Z.ltb_lt; lia).
      destruct (Rlt_dec (random (rng s)) 0.3) as [Hroll|_]; [|reflexivity].
      exfalso. apply (Hfail (rng s)); [lia | exact Hroll]. }
    rewrite Hstep, IH; cbn [positions lifes vels spawned rng].
    + f_equal; lia.
    + lia.
    + eapply freeRange_tail; [exact Hfree | reflexivity].
    + intros c Hc. apply Hfail. lia.
Qed.
End SpawnFacts.

Lemma attemptLoop_app (fround : R -> R) (random : nat -> R)
    (rate : Z) (lm : R) (n m i : nat) (s : SparkLoop) :
  attemptLoop fround random rate lm (n + m) i s
  = attemptLoop fround random rate lm m (i + n) (attemptLoop fround random rate lm n i s).
Proof.
  revert i s. induction n as [|n IH]; intros i s.
  - cbn. by rewrite Nat.add_0_r.
  - cbn [Nat.add attemptLoop]. rewrite IH. f_equal. lia.
Qed.

Lemma runSparks_unfold fround random rate lifeMult sp :
  runSparks fround random rate lifeMult sp
  = sparkLoop fround random rate lifeMult MAX_SPARKS 0 (loopStart sp).
Proof. reflexivity. Qed.

Lemma attemptTick_unfold fround random density lifeMult sp :
  attemptTick fround random density lifeMult sp
  = attemptLoop fround random (Zfloor (density * 20)) lifeMult MAX_SPARKS 0 (loopStart sp).
Proof. reflexivity. Qed.

Lemma newlyActive_unfold before after :
  newlyActive before after = activatedBelow MAX_SPARKS before after.
Proof. reflexivity. Qed.

Lemma spawnRate_full_density : Zfloor (1.0 * 20) = 20%Z.
Proof. apply Zfloor_eq. lra. Qed.

(** C3, amended.  The budget [floor(density * 20)] bounds the sparks
    activated in a frame, not the rolls: the number of slots activated is
    the final value of [spawned], it is at most the budget, and it is the
    smaller of the budget and the number of slots the same frame activates
    when the budget is [MAX_SPARKS], that is, when every free slot
    rolls. *)
Theorem spawn_budget_counts_spawns
    (fround : R -> R) (random : nat -> R) (density lifeMult : R) (sp : Spatter) :
  let rate := Zfloor (density * 20) in
  (0 <= rate <= Z.of_nat MAX_SPARKS)%Z ->
  let s := spatterTick fround random density lifeMult sp in
  let unbounded := runSparks fround random (Z.of_nat MAX_SPARKS) lifeMult sp in
  Z.of_nat (length (newlyActive (aLife sp) (lifes s))) = spawned s
  /\ (spawned s <= rate)%Z
  /\ Z.of_nat (length (newlyActive (aLife sp) (lifes unbounded))) = spawned unbounded
  /\ spawned s = Z.min rate (spawned unbounded).
Proof.
  intros rate Hrate s unbounded. subst s unbounded rate.
  rewrite spatterTick_unfold, runSparks_unfold.
  rewrite (newlyActive_unfold (aLife sp)
             (lifes (sparkLoop fround random (Zfloor (density * 20)) lifeMult MAX_SPARKS 0
                       (loopStart sp)))).
  rewrite (newlyActive_unfold (aLife sp)
             (lifes (sparkLoop fround random (Z.of_nat MAX_SPARKS) lifeMult MAX_SPARKS 0
                       (loopStart sp)))).
  exact (sparkLoop_budget_summary fround random (Zfloor (density * 20)) (Z.of_nat MAX_SPARKS)
           lifeMult MAX_SPARKS (loopStart sp) eq_refl Hrate).
Qed.

Lemma spawn_budget_counts_spawns_witness :
  let s := spatterTick (fun x => x) rollsFailThenPass 1.0 1.0 newSpatter in
  let unbounded :=
    runSparks (fun x => x) rollsFailThenPass (Z.of_nat MAX_SPARKS) 1.0 newSpatter in
  Z.of_nat (length (newlyActive (aLife newSpatter) (lifes s))) = spawned s
  /\ (spawned s <= Zfloor (1.0 * 20))%Z
  /\ Z.of_nat (length (newlyActive (aLife newSpatter) (lifes unbounded))) = spawned unbounded
  /\ spawned s = Z.min (Zfloor (1.0 * 20)) (spawned unbounded).
Proof.
  apply (spawn_budget_counts_spawns (fun x => x) rollsFailThenPass 1.0 1.0 newSpatter).
  rewrite spawnRate_full_density. unfold MAX_SPARKS. lia.
Defined.

(** *** A frame in which the first twenty rolls fail *)

Lemma rollsFailThenPass_fail (c : nat) : (c < 20)%nat -> ~ rollsFailThenPass c < 0.3.
Proof.
  intros Hc. unfold rollsFailThenPass.
  assert ((c <? 20)%nat = true) as -> by (apply Nat.ltb_lt; lia). lra.
Qed.

Lemma rollsFailThenPass_pass (c : nat) : (20 <= c)%nat -> rollsFailThenPass c < 0.3.
Proof.
  intros Hc. unfold rollsFailThenPass.
  assert ((c <? 20)%nat = false) as -> by (apply Nat.ltb_ge; lia). lra.
Qed.

Lemma newSpatter_free (i n : nat) :
  (i + n <= MAX_SPARKS)%nat -> freeRange i n (loopStart newSpatter).
Proof.
  intros Hin j Hj. unfold loopStart, newSpatter, readF32. cbn [lifes aLife].
  rewrite lookup_replicate_2 by lia. cbn [default]. apply numLe_Some_true. lra.
Qed.

Lemma MAX_SPARKS_runs : MAX_SPARKS = (20 + (20 + 760))%nat.
Proof. reflexivity. Qed.

Lemma MAX_SPARKS_attempts : MAX_SPARKS = (20 + 780)%nat.
Proof. reflexivity. Qed.

(** The program activates twenty sparks in that frame: the twenty
    failed rolls do not use up the budget. *)
Lemma failing_rolls_spawned :
  spawned (sparkLoop (fun x => x) rollsFailThenPass 20 1.0 MAX_SPARKS 0 (loopStart newSpatter))
  = 20%Z.
Proof.
  set (s0 := loopStart newSpatter).
  rewrite MAX_SPARKS_runs.
  rewrite (sparkLoop_app (fun x => x) rollsFailThenPass 20 1.0 20 (20 + 760) 0 s0).
  rewrite (sparkLoop_rolls_fail (fun x => x) rollsFailThenPass 20 1.0 20 0 s0).
  2: { subst s0. cbn [spawned loopStart]. lia. }
  2: { apply newSpatter_free. unfold MAX_SPARKS. lia. }
  2: { intros c Hc. apply rollsFailThenPass_fail. subst s0. cbn [rng loopStart] in Hc. lia. }
  set (s1 := {| positions := positions s0; lifes := lifes s0; vels := vels s0;
                spawned := spawned s0; rng := (rng s0 + 20)%nat |}).
  assert (Hfree1 : forall i n, (i + n <= MAX_SPARKS)%nat -> freeRange i n s1).
  { intros i n Hin. exact (newSpatter_free i n Hin). }
  rewrite (sparkLoop_app (fun x => x) rollsFailThenPass 20 1.0 20 760 (0 + 20) s1).
  set (s2 := sparkLoop (fun x => x) rollsFailThenPass 20 1.0 20 (0 + 20) s1).
  assert (Hs2 : spawned s2 = 20%Z).
  { subst s2. rewrite sparkLoop_rolls_pass.
    - reflexivity.
    - cbn [spawned s1 s0 loopStart]. lia.
    - apply Hfree1. unfold MAX_SPARKS. lia.
    - intros c Hc. apply rollsFailThenPass_pass. cbn [rng s1 s0 loopStart] in Hc. lia. }
  rewrite sparkLoop_idle; [exact Hs2 | lia | ].
  intros j Hj. unfold readF32. subst s2. rewrite sparkLoop_lifes_ne by lia.
  apply (Hfree1 j 1%nat); [unfold MAX_SPARKS | ]; lia.
Qed.

(** Under the reading "the budget counts attempts" the twenty failed
    rolls use it up, and no spark is activated. *)
Lemma failing_rolls_attempts :
  lifes (attemptLoop (fun x => x) rollsFailThenPass 20 1.0 MAX_SPARKS 0 (loopStart newSpatter))
  = aLife newSpatter.
Proof.
  set (s0 := loopStart newSpatter).
  rewrite MAX_SPARKS_attempts.
  rewrite (attemptLoop_app (fun x => x) rollsFailThenPass 20 1.0 20 780 0 s0).
  rewrite (attemptLoop_rolls_fail (fun x => x) rollsFailThenPass 20 1.0 20 0 s0).
  2: { subst s0. cbn [spawned loopStart]. lia. }
  2: { apply newSpatter_free. unfold MAX_SPARKS. lia. }
  2: { intros c Hc. apply rollsFailThenPass_fail. subst s0. cbn [rng loopStart] in Hc. lia. }
  rewrite attemptLoop_idle; [reflexivity | cbn [spawned s0 loopStart]; lia | ].
  exact (newSpatter_free (0 + 20) 780 ltac:(unfold MAX_SPARKS; lia)).
Qed.

(** C3, as stated, fails.  Take [density = 1.0], all 800 slots free, and
    rolls of which the first twenty fail and the later ones succeed.  If
    the budget of 20 counted attempts, as the claim says, the twenty
    failed rolls would use it up and no slot would be activated (the
    count would be the number of successes among twenty rolls, here 0).
    The program activates twenty. *)
Lemma spawn_budget_not_attempts :
  let before := aLife newSpatter in
  let program := spatterTick (fun x => x) rollsFailThenPass 1.0 1.0 newSpatter in
  let claimed := attemptTick (fun x => x) rollsFailThenPass 1.0 1.0 newSpatter in
  length (newlyActive before (lifes program)) = 20%nat
  /\ length (newlyActive before (lifes claimed)) = 0%nat
  /\ lifes program <> lifes claimed.
Proof.
  intros before program claimed. subst before program claimed.
  rewrite spatterTick_unfold, attemptTick_unfold, spawnRate_full_density.
  rewrite failing_rolls_attempts.
  pose proof (sparkLoop_activated (fun x => x) rollsFailThenPass 20 1.0 MAX_SPARKS
                (loopStart newSpatter)) as Hact.
  rewrite failing_rolls_spawned in Hact.
  change (lifes (loopStart newSpatter)) with (aLife newSpatter) in Hact.
  change (spawned (loopStart newSpatter)) with 0%Z in Hact.
  rewrite (newlyActive_unfold (aLife newSpatter)
             (lifes (sparkLoop (fun x => x) rollsFailThenPass 20 1.0 MAX_SPARKS 0
                       (loopStart newSpatter)))).
  rewrite (newlyActive_unfold (aLife newSpatter) (aLife newSpatter)).
  rewrite activatedBelow_same.
  assert (Hcount : length (activatedBelow MAX_SPARKS (aLife newSpatter)
                     (lifes (sparkLoop (fun x => x) rollsFailThenPass 20 1.0 MAX_SPARKS 0
                               (loopStart newSpatter)))) = 20%nat) by lia.
  split; [exact Hcount|]. split; [reflexivity|].
  intros Heq. rewrite Heq, activatedBelow_same in Hcount. clear Hact Heq.
  cbn [length] in Hcount. lia.
Qed.

(* ------------------------------------------------------------------ *)
(** ** Properties of the rest of the application                        *)
(* ------------------------------------------------------------------ *)

(** ** More on the joint dynamics integrator *)

Lemma simulate_S (n : nat) (g f tq : R) (inst : gmap string RoboticComponent)
    (sim : JointState) :
  simulate (S n) g f tq inst sim = render g f tq inst (simulate n g f tq inst sim).
Proof. reflexivity. Qed.

Lemma chassisEffect_range (inst : gmap string RoboticComponent) :
  0.8 <= chassisEffect inst <= 1.
Proof. unfold chassisEffect. destruct (inst !! "Chassis"%string); lra. Qed.




(** One tick without gravity and motor command scales each velocity by
    [1 - damping * dt]. *)
Lemma render_damping_only (f : R) (inst : gmap string RoboticComponent) (sim : JointState) :
  omega1 (render 0 f 0 inst sim) = omega1 sim * (1 - f * 5 * chassisEffect inst * 0.016)
  /\ omega2 (render 0 f 0 inst sim) = omega2 sim * (1 - f * 5 * chassisEffect inst * 0.016).
Proof. unfold render. cbn [omega1 omega2]. split; lra. Qed.

(** X3.  For every friction setting of the slider (between 0 and 1),
    without gravity and motor command, the velocities never grow and
    never change sign: the explicit Euler step of the damping is stable. *)
Theorem simulate_damping_stable
    (n : nat) (friction : R) (installed : gmap string RoboticComponent)
    (sim : JointState) :
  0 <= friction <= 1 ->
  let sim' := simulate n 0 friction 0 installed sim in
  Rabs (omega1 sim') <= Rabs (omega1 sim)
  /\ Rabs (omega2 sim') <= Rabs (omega2 sim)
  /\ 0 <= omega1 sim * omega1 sim'
  /\ 0 <= omega2 sim * omega2 sim'.
Proof.
  intros Hf. cbv zeta.
  pose proof (chassisEffect_range installed) as Hc.
  set (k := 1 - friction * 5 * chassisEffect installed * 0.016).
  assert (Hk : 0 <= k <= 1) by (unfold k; nra).
  assert (Hn : omega1 (simulate n 0 friction 0 installed sim) = omega1 sim * k ^ n
               /\ omega2 (simulate n 0 friction 0 installed sim) = omega2 sim * k ^ n).
  { induction n as [|n [IH1 IH2]]; [cbn; split; lra|].
    rewrite simulate_S.
    destruct (render_damping_only friction installed
                (simulate n 0 friction 0 installed sim)) as [-> ->].
    rewrite IH1, IH2. fold k. cbn [pow]. split; ring. }
  destruct Hn as [-> ->].
  assert (Hp : 0 <= k ^ n <= 1).
  { split; [apply pow_le; lra|]. rewrite <- (pow1 n). apply pow_incr. lra. }
  rewrite !Rabs_mult, (Rabs_pos_eq (k ^ n)) by lra.
  pose proof (Rabs_pos (omega1 sim)). pose proof (Rabs_pos (omega2 sim)).
  repeat split; nra.
Qed.

Lemma simulate_damping_stable_witness :
  let sim' := simulate 60 0 0.5 0 initialComponents movingJoints in
  Rabs (omega1 sim') <= Rabs (omega1 movingJoints)
  /\ Rabs (omega2 sim') <= Rabs (omega2 movingJoints)
  /\ 0 <= omega1 movingJoints * omega1 sim'
  /\ 0 <= omega2 movingJoints * omega2 sim'.
Proof.
  apply (simulate_damping_stable 60 0.5 initialComponents movingJoints). lra.
Defined.

(** X4.  The second joint is passive: its motion over any number of
    ticks depends on gravity, friction, the chassis and its own state
    only, not on the motor command, the actuator or the first joint. *)
Theorem simulate_joint2_passive
    (n : nat) (gravity friction torque torque' : R)
    (installed installed' : gmap string RoboticComponent) (sim sim' : JointState) :
  chassisEffect installed = chassisEffect installed' ->
  theta2 sim = theta2 sim' -> omega2 sim = omega2 sim' ->
  theta2 (simulate n gravity friction torque installed sim)
  = theta2 (simulate n gravity friction torque' installed' sim')
  /\ omega2 (simulate n gravity friction torque installed sim)
     = omega2 (simulate n gravity friction torque' installed' sim').
Proof.
  intros Hc Ht Ho. induction n as [|n [IHt IHo]]; [by split|].
  rewrite !simulate_S. unfold render. cbn [theta2 omega2].
  rewrite IHt, IHo, Hc. by split.
Qed.

Lemma simulate_joint2_passive_witness :
  theta2 (simulate 10 9.8 0.1 200 initialComponents initialJointState)
  = theta2 (simulate 10 9.8 0.1 (-200)
              (<["Actuator"%string := unratedServo]> initialComponents)
              {| theta1 := 0; omega1 := 3; theta2 := PI / 6; omega2 := 0 |})
  /\ omega2 (simulate 10 9.8 0.1 200 initialComponents initialJointState)
     = omega2 (simulate 10 9.8 0.1 (-200)
                 (<["Actuator"%string := unratedServo]> initialComponents)
                 {| theta1 := 0; omega1 := 3; theta2 := PI / 6; omega2 := 0 |}).
Proof.
  apply (simulate_joint2_passive 10 9.8 0.1 200 (-200) initialComponents
           (<["Actuator"%string := unratedServo]> initialComponents)
           initialJointState
           {| theta1 := 0; omega1 := 3; theta2 := PI / 6; omega2 := 0 |});
    reflexivity.
Defined.

(** ** The physics loop and the controls around it *)

(** X5.  Animation frames advance the joints exactly while the
    simulation page is shown, the simulation runs and no emergency stop is
    active: then [n] frames are [n] ticks of the integrator with the
    current settings, which they leave as they are together with the page,
    the flags and the equipment; otherwise they change nothing. *)
Theorem physicsFrames_runs_or_rests (n : nat) (a : AppState) :
  physicsFrames n a
  = if Page_eqb (currentPage a) Simulation && simRunning a && negb (isEmergencyStopped a)
    then {| currentPage := currentPage a; simRunning := simRunning a;
            isEmergencyStopped := isEmergencyStopped a; gravity := gravity a;
            friction := friction a; torque := torque a;
            installedComponents := installedComponents a;
            simRef := simulate n (gravity a) (friction a) (torque a)
                               (installedComponents a) (simRef a) |}
    else a.
Proof.
  destruct (Page_eqb (currentPage a) Simulation && simRunning a
            && negb (isEmergencyStopped a)) eqn:Hgo.
  - apply andb_true_iff in Hgo as [Hgo Hstop]. apply andb_true_iff in Hgo as [Hpage Hrun].
    apply negb_true_iff in Hstop.
    induction n as [|n IH]; [by destruct a|].
    unfold physicsFrames in *. rewrite Nat.iter_succ, IH.
    unfold physicsFrame.
    cbn [currentPage simRunning isEmergencyStopped gravity friction torque
         installedComponents simRef].
    rewrite Hpage, Hrun, Hstop. reflexivity.
  - assert (Hstep : physicsFrame a = a).
    { unfold physicsFrame.
      destruct (Page_eqb (currentPage a) Simulation), (simRunning a),
        (isEmergencyStopped a); try reflexivity; discriminate. }
    induction n as [|n IH]; [reflexivity|].
    unfold physicsFrames in *. by rewrite Nat.iter_succ, IH.
Qed.

(** X6.  A drag-and-drop installs the dragged component in the slot
    named by its type and nowhere else, ends the gesture, and a second
    drop without a new drag changes nothing. *)
Theorem handleDrop_installs (comp : RoboticComponent) (d : DragState) :
  let d' := handleDrop (onDragStart comp d) in
  installedComponents (dragApp d') !! type comp = Some comp
  /\ (forall slot, slot <> type comp ->
        installedComponents (dragApp d') !! slot = installedComponents (dragApp d) !! slot)
  /\ draggedItem d' = None
  /\ handleDrop d' = d'.
Proof.
  cbv zeta. unfold handleDrop, onDragStart.
  cbn [draggedItem dragApp isDraggingOver setInstalledComponents installedComponents].
  split; [apply lookup_insert_eq|].
  split; [intros slot Hne; by rewrite lookup_insert_ne|].
  split; reflexivity.
Qed.

(** X7.  Installing a component that is neither an actuator nor a
    chassis does not change the dynamics: the integrator makes the same
    step before and after the drop. *)
Theorem handleDrop_keeps_dynamics
    (comp : RoboticComponent) (d : DragState) (g f tq : R) (sim : JointState) :
  type comp <> "Actuator"%string -> type comp <> "Chassis"%string ->
  render g f tq (installedComponents (dragApp (handleDrop (onDragStart comp d)))) sim
  = render g f tq (installedComponents (dragApp d)) sim.
Proof.
  intros Hact Hch. unfold handleDrop, onDragStart.
  cbn [draggedItem dragApp setInstalledComponents installedComponents].
  unfold render, chassisEffect, maxTorqueCapacity.
  by rewrite !lookup_insert_ne.
Qed.

Lemma handleDrop_keeps_dynamics_witness :
  render 9.8 0.1 50
    (installedComponents
       (dragApp (handleDrop (onDragStart ousterLidar (mkDrag haltedApp None false)))))
    movingJoints
  = render 9.8 0.1 50 (installedComponents (dragApp (mkDrag haltedApp None false)))
      movingJoints.
Proof.
  apply (handleDrop_keeps_dynamics ousterLidar (mkDrag haltedApp None false));
    discriminate.
Defined.

Lemma handleDrop_keeps_slots (comp : RoboticComponent) (d : DragState) (slot : string) :
  is_Some (installedComponents (dragApp d) !! slot) ->
  is_Some (installedComponents (dragApp (handleDrop (onDragStart comp d))) !! slot).
Proof.
  intros Hin. unfold handleDrop, onDragStart.
  cbn [draggedItem dragApp setInstalledComponents installedComponents].
  destruct (decide (type comp = slot)) as [->|Hne].
  - rewrite lookup_insert_eq. eauto.
  - by rewrite lookup_insert_ne.
Qed.

(** X8.  Nothing is ever uninstalled: once a chassis is installed, the
    damping keeps its factor 0.8 through any sequence of drag-and-drops. *)
Theorem installAll_keeps_chassis (items : list RoboticComponent) (d : DragState) :
  is_Some (installedComponents (dragApp d) !! "Chassis"%string) ->
  chassisEffect (installedComponents (dragApp (installAll items d))) = 0.8.
Proof.
  intros Hin.
  assert (Hkept : is_Some (installedComponents (dragApp (installAll items d))
                             !! "Chassis"%string)).
  { revert d Hin. induction items as [|item items IH]; intros d Hin; [exact Hin|].
    unfold installAll in *. cbn [foldl]. apply IH. by apply handleDrop_keeps_slots. }
  unfold chassisEffect. by destruct Hkept as [c ->].
Qed.

Lemma installAll_keeps_chassis_witness :
  chassisEffect
    (installedComponents
       (dragApp (installAll [jetsonOrin; ousterLidar; weldGun]
                   (handleDrop (onDragStart titaniumSkeleton (mkDrag haltedApp None false))))))
  = 0.8.
Proof.
  apply (installAll_keeps_chassis [jetsonOrin; ousterLidar; weldGun]).
  exists titaniumSkeleton. reflexivity.
Defined.

(** X9.  The torque shown beside the slider uses the same capacity as
    the integrator, except for an actuator rated 0: there the display
    falls back to 100 while the integrator applies no torque at all. *)
Theorem maxVal_capacity (installed : gmap string RoboticComponent) :
  maxVal installed
  = if Req_dec_T (maxTorqueCapacity installed) 0 then 100
    else maxTorqueCapacity installed.
Proof.
  unfold maxVal, maxTorqueCapacity.
  destruct (installed !! "Actuator"%string) as [actuator|].
  2: { destruct (Req_dec_T 100 0); [lra | reflexivity]. }
  destruct (includes "Nm" (spec actuator)).
  2: { destruct (Req_dec_T 100 0); [lra | reflexivity]. }
  destruct (parseInt (spec actuator)) as [parsed|].
  2: { destruct (Req_dec_T 100 0); [lra | reflexivity]. }
  destruct (parsed =? 0)%Z eqn:E.
  - apply Z.eqb_eq in E. subst parsed.
    destruct (Req_dec_T (IZR 0) 0); [reflexivity | lra].
  - apply Z.eqb_neq in E.
    destruct (Req_dec_T (IZR parsed) 0) as [H0|_]; [|reflexivity].
    exfalso. apply E. by apply eq_IZR.
Qed.

(** An actuator rated 0 Nm: the label shows 25 Nm at half command, the
    integrator applies none. *)
Example zero_rated_actuator :
  let installed :=
    <["Actuator"%string := mkComponent "Idle Motor" "Actuator" "0 Nm" "Zap"]> initialComponents in
  maxTorqueCapacity installed = 0 /\ displayedTorque 50 installed = 25.
Proof.
  cbv zeta. split; [reflexivity|].
  unfold displayedTorque.
  assert (H0 : maxVal
                 (<["Actuator"%string := mkComponent "Idle Motor" "Actuator" "0 Nm" "Zap"]>
                    initialComponents) = 100) by reflexivity.
  rewrite H0. lra.
Qed.

(** ** Blank input *)

Lemma trimStart_blank (s : string) :
  trimStart s = EmptyString <-> allWhiteSpace s = true.
Proof.
  unfold allWhiteSpace. induction s as [|c s IH]; cbn; [done|].
  destruct (isWhiteSpace c); cbn; [exact IH|]. split; discriminate.
Qed.

Lemma trimStart_head (s : string) (c : ascii) (t : string) :
  trimStart s = String c t -> isWhiteSpace c = false.
Proof.
  induction s as [|c' s IH]; cbn; [discriminate|].
  destruct (isWhiteSpace c') eqn:E; [exact IH|]. by intros [= <- _].
Qed.

Lemma trimEnd_head (c : ascii) (t : string) :
  isWhiteSpace c = false -> trimEnd (String c t) <> EmptyString.
Proof.
  intros Hc. cbn [trimEnd]. rewrite Hc. by destruct (trimEnd t).
Qed.

(** [s.trim()] is empty exactly when [s] is made of white space. *)
Lemma trim_blank (s : string) : trim s = EmptyString <-> allWhiteSpace s = true.
Proof.
  unfold trim. rewrite <- trimStart_blank.
  destruct (trimStart s) as [|c t] eqn:E; [done|].
  split; [|discriminate]. intros H. exfalso.
  by apply (trimEnd_head c t (trimStart_head s c t E)).
Qed.

Lemma truthyString_trim (s : string) :
  truthyString (trim s) = negb (allWhiteSpace s).
Proof.
  unfold truthyString. destruct (allWhiteSpace s) eqn:E.
  - apply trim_blank in E. by rewrite E.
  - destruct (String.eqb_spec (trim s) EmptyString) as [Heq|]; [|reflexivity].
    apply trim_blank in Heq. congruence.
Qed.

Lemma physicsFrames_fixed (n : nat) (a : AppState) :
  physicsFrame a = a -> physicsFrames n a = a.
Proof.
  intros Hstep. induction n as [|n IH]; [reflexivity|].
  unfold physicsFrames in *. by rewrite Nat.iter_succ, IH.
Qed.

(** ** The diagnostics console and the safety halt *)

(** X10.  [handleRunDiagnostics] ignores a blank log: nothing changes and
    nothing is sent.  Any other log is sent for analysis as it stands,
    untrimmed, and the console shows that a diagnosis is under way. *)
Theorem beginDiagnostics_blank_or_sent (log : option string) (d : DiagState) :
  snd (beginDiagnostics log d)
  = (if allWhiteSpace (diagInput log d) then None else Some (diagInput log d))
  /\ (if allWhiteSpace (diagInput log d)
      then fst (beginDiagnostics log d) = d
      else isDiagnosing (fst (beginDiagnostics log d)) = true
           /\ errorLog (fst (beginDiagnostics log d)) = errorLog d).
Proof.
  unfold beginDiagnostics. cbv zeta. rewrite truthyString_trim, negb_involutive.
  by destruct (allWhiteSpace (diagInput log d)).
Qed.

(** X11.  A log that reports a human in the cell (it contains "Human
    profile identified" or "CRITICAL_SAFETY_ALARM") halts the robot before
    the analysis is even requested: the emergency stop is set, the
    simulation is stopped, and no number of animation frames moves the
    joints, which stay where they were. *)
Theorem beginDiagnostics_safety_halt
    (log : option string) (d d' : DiagState) (sent : string) (n : nat) :
  beginDiagnostics log d = (d', Some sent) ->
  includes "Human profile identified" sent || includes "CRITICAL_SAFETY_ALARM" sent = true ->
  isEmergencyStopped (diagApp d') = true
  /\ simRunning (diagApp d') = false
  /\ physicsFrames n (diagApp d') = diagApp d'
  /\ simRef (diagApp d') = simRef (diagApp d).
Proof.
  unfold beginDiagnostics. cbv zeta.
  destruct (negb (truthyString (trim (diagInput log d)))); [discriminate|].
  intros [= <- <-] Halarm. cbn [diagApp]. rewrite Halarm.
  repeat split.
  apply physicsFrames_fixed. apply physicsFrame_frozen. by left.
Qed.

Lemma beginDiagnostics_safety_halt_witness :
  isEmergencyStopped (diagApp (fst (beginDiagnostics (Some intrusionLog) idleConsole))) = true
  /\ simRunning (diagApp (fst (beginDiagnostics (Some intrusionLog) idleConsole))) = false
  /\ physicsFrames 60 (diagApp (fst (beginDiagnostics (Some intrusionLog) idleConsole)))
     = diagApp (fst (beginDiagnostics (Some intrusionLog) idleConsole))
  /\ simRef (diagApp (fst (beginDiagnostics (Some intrusionLog) idleConsole)))
     = simRef (diagApp idleConsole).
Proof.
  apply (beginDiagnostics_safety_halt (Some intrusionLog) idleConsole
           (fst (beginDiagnostics (Some intrusionLog) idleConsole)) intrusionLog 60).
  - reflexivity.
  - reflexivity.
Defined.

Lemma intrusionLog_sent : truthyString intrusionLog = true
  /\ negb (truthyString (trim intrusionLog)) = false
  /\ includes "Human profile identified" intrusionLog
     || includes "CRITICAL_SAFETY_ALARM" intrusionLog = true.
Proof. repeat split; reflexivity. Qed.

(** X12.  After "Simulate Human Intrusion", "Reset E-Stop" alone does
    not set the leg in motion again: the simulation stays stopped until
    "Start Sim" is pressed, and then it resumes from the joint state it was
    halted in. *)
Theorem resetEStop_stays_stopped (d : DiagState) (n : nat) :
  let halted := diagApp (fst (simulateIntrusion d)) in
  physicsFrames n halted = halted
  /\ physicsFrames n (resetEStop halted) = resetEStop halted
  /\ simRunning (toggleSim (resetEStop halted)) = true
  /\ isEmergencyStopped (toggleSim (resetEStop halted)) = false
  /\ simRef (toggleSim (resetEStop halted)) = simRef (diagApp d).
Proof.
  cbv zeta. unfold simulateIntrusion, beginDiagnostics.
  cbv zeta. unfold diagInput.
  destruct intrusionLog_sent as (-> & -> & ->).
  cbn [fst diagApp].
  split; [apply physicsFrames_fixed, physicsFrame_frozen; by left|].
  split; [apply physicsFrames_fixed, physicsFrame_frozen; by right|].
  repeat split.
Qed.

(** ** Searching from the navigation bar *)

(** X13.  The search field submits exactly the queries that contain
    something other than white space; the query is passed on as typed,
    untrimmed, and the field is cleared.  A blank query is neither
    submitted nor cleared. *)
Theorem handleSearchSubmit_blank (localQuery : string) :
  handleSearchSubmit localQuery
  = if allWhiteSpace localQuery then (None, localQuery)
    else (Some localQuery, EmptyString).
Proof.
  unfold handleSearchSubmit. rewrite truthyString_trim.
  by destruct (allWhiteSpace localQuery).
Qed.

(** X14.  A search leaves the simulation page, and with it freezes the
    leg: whatever the flags, no number of animation frames changes
    anything while the results are shown, and the joint state, the
    settings and the run flag are those the simulation was left with. *)
Theorem handleSearch_pauses (query : string) (s : SearchState) (n : nat) :
  let a' := searchApp (handleSearch query s) in
  physicsFrames n a' = a'
  /\ simRef a' = simRef (searchApp s)
  /\ simRunning a' = simRunning (searchApp s)
  /\ setCurrentPage (currentPage (searchApp s)) a' = searchApp s.
Proof.
  cbv zeta. unfold handleSearch. cbn [searchApp].
  split; [|split; [reflexivity | split; [reflexivity | by destruct (searchApp s)]]].
  apply physicsFrames_fixed. reflexivity.
Qed.

(** A query of blanks stays in the field; a padded query is passed on
    with its padding. *)
Example handleSearchSubmit_padded :
  handleSearchSubmit "   " = (None, "   "%string)
  /\ handleSearchSubmit " lidar " = (Some " lidar "%string, EmptyString).
Proof. split; reflexivity. Qed.

(** ** The energy and network sampler *)

Lemma sliceLast_length {A : Type} (k : nat) (l : list A) :
  length (sliceLast k l) = Nat.min k (length l).
Proof. unfold sliceLast. rewrite length_drop. lia. Qed.

Lemma sliceLast_suffix {A : Type} (k : nat) (l : list A) : sliceLast k l `suffix_of` l.
Proof. unfold sliceLast. apply suffix_drop. Qed.

Lemma sliceLast_last {A : Type} (k : nat) (l : list A) (x : A) :
  (0 < k)%nat -> last (sliceLast k (l ++ [x])) = Some x.
Proof.
  intros Hk. unfold sliceLast. rewrite length_app. cbn [length].
  rewrite drop_app_le by lia. apply last_snoc.
Qed.

(** X15.  While the robot is not halted, each run of the sampler
    appends one power sample and one network sample and keeps the last
    twenty of each: the new sample is the last, the older ones keep their
    order, and neither chart ever holds more than twenty points. *)
Theorem samplerTick_window
    (random : nat -> R) (energyClock networkClock : string) (s : Telemetry) :
  isEmergencyStopped (telemetryApp s) = false ->
  let s' := samplerTick random energyClock networkClock s in
  length (energyData s') = Nat.min 20 (S (length (energyData s)))
  /\ length (networkData s') = Nat.min 20 (S (length (networkData s)))
  /\ last (energyData s') = Some (powerSample random energyClock (telemetryApp s))
  /\ last (networkData s') = Some (networkSample random networkClock)
  /\ energyData s' `suffix_of`
       (energyData s ++ [powerSample random energyClock (telemetryApp s)])
  /\ networkData s' `suffix_of` (networkData s ++ [networkSample random networkClock]).
Proof.
  intros Hrun. cbv zeta. unfold samplerTick. rewrite Hrun.
  cbn [energyData networkData].
  rewrite !sliceLast_length, !length_app. cbn [length].
  rewrite !sliceLast_last by lia.
  repeat split; try (f_equal; lia); apply sliceLast_suffix.
Qed.

Lemma samplerTick_window_witness :
  let s' := samplerTick highRolls "10:00:02" "10:00:02" busyTelemetry in
  length (energyData s') = Nat.min 20 (S (length (energyData busyTelemetry)))
  /\ length (networkData s') = Nat.min 20 (S (length (networkData busyTelemetry)))
  /\ last (energyData s')
     = Some (powerSample highRolls "10:00:02" (telemetryApp busyTelemetry))
  /\ last (networkData s') = Some (networkSample highRolls "10:00:02")
  /\ energyData s' `suffix_of`
       (energyData busyTelemetry
          ++ [powerSample highRolls "10:00:02" (telemetryApp busyTelemetry)])
  /\ networkData s' `suffix_of`
       (networkData busyTelemetry ++ [networkSample highRolls "10:00:02"]).
Proof.
  apply (samplerTick_window highRolls "10:00:02" "10:00:02" busyTelemetry). reflexivity.
Defined.

Lemma samplerRuns_S random clock (n : nat) (s : Telemetry) :
  samplerRuns random clock (S n) s
  = samplerTick (random n) (clock n) (clock n) (samplerRuns random clock n s).
Proof. unfold samplerRuns. by rewrite seq_S, foldl_app. Qed.

Lemma samplerRuns_app random clock (n : nat) (s : Telemetry) :
  telemetryApp (samplerRuns random clock n s) = telemetryApp s.
Proof.
  induction n as [|n IH]; [reflexivity|].
  rewrite samplerRuns_S. unfold samplerTick. rewrite IH.
  by destruct (isEmergencyStopped (telemetryApp s)).
Qed.

(** X16.  Over any number of runs the charts fill up to twenty points
    and stay there; while the robot is halted they do not change at
    all. *)
Theorem samplerRuns_fill
    (random : nat -> nat -> R) (clock : nat -> string) (n : nat) (s : Telemetry) :
  let s' := samplerRuns random clock n s in
  if isEmergencyStopped (telemetryApp s) then s' = s
  else length (energyData s') = (if n is O then length (energyData s)
                                 else Nat.min 20 (length (energyData s) + n))
       /\ length (networkData s') = (if n is O then length (networkData s)
                                     else Nat.min 20 (length (networkData s) + n)).
Proof.
  cbv zeta. destruct (isEmergencyStopped (telemetryApp s)) eqn:Hstop.
  - induction n as [|n IH]; [reflexivity|].
    rewrite samplerRuns_S, IH. unfold samplerTick. by rewrite Hstop.
  - induction n as [|n IH]; [by split|].
    rewrite samplerRuns_S. unfold samplerTick at 1 2.
    rewrite samplerRuns_app, Hstop. cbn [energyData networkData].
    rewrite !sliceLast_length, !length_app. cbn [length].
    destruct IH as [-> ->]. destruct n; lia.
Qed.





(** ** The diagnostic service and the handlers that use it *)

Section ServiceFacts.
Variable generateContent : string -> outcome (option string).
Variable JSON_parse : string -> outcome json.

Local Abbreviation resolve := (resolveRoboticsError generateContent JSON_parse).

Lemma resolveRoboticsError_returns (errorLog : string) :
  exists result, resolve errorLog = Returns result.
Proof.
  unfold resolveRoboticsError. destruct (bindOutcome _ _) as [v|]; cbn; eauto.
Qed.

Lemma resolveRoboticsError_offline (errorLog : string) :
  generateContent (diagnosticRequest errorLog) = Throws ->
  resolve errorLog = Returns (JObj diagnosticFallback).
Proof.
  intros Hfail. unfold resolveRoboticsError. fold (diagnosticRequest errorLog).
  by rewrite Hfail.
Qed.

Lemma handleRunDiagnostics_sent (log : option string) (d : DiagState) :
  allWhiteSpace (diagInput log d) = false ->
  exists result,
    resolve (diagInput log d) = Returns result
    /\ handleRunDiagnostics generateContent JSON_parse log d
       = endDiagnostics result (fst (beginDiagnostics log d)).
Proof.
  intros Hsent. destruct (resolveRoboticsError_returns (diagInput log d)) as [result Hres].
  exists result. split; [exact Hres|].
  unfold handleRunDiagnostics, beginDiagnostics. cbv zeta.
  rewrite truthyString_trim, Hsent. cbn [negb fst]. by rewrite Hres.
Qed.
End ServiceFacts.

(** X19.  When the diagnostic service fails, a diagnosis still comes to
    its end: the console stops showing "Analyzing...", the result is the
    fixed record "Critical diagnostic failure...", no limb is highlighted
    (the subsystem is "General"), and a safety halt made at the start stays
    in force. *)
Theorem handleRunDiagnostics_offline
    (generateContent : string -> outcome (option string))
    (JSON_parse : string -> outcome json)
    (log : option string) (d : DiagState) :
  allWhiteSpace (diagInput log d) = false ->
  generateContent (diagnosticRequest (diagInput log d)) = Throws ->
  let d' := handleRunDiagnostics generateContent JSON_parse log d in
  isDiagnosing d' = false
  /\ diagResult d' = JObj diagnosticFallback
  /\ highlightedSubsystem d' = Some (JStr "General")
  /\ diagApp d' = diagApp (fst (beginDiagnostics log d)).
Proof.
  intros Hsent Hfail. cbv zeta.
  destruct (handleRunDiagnostics_sent generateContent JSON_parse log d Hsent)
    as (result & Hres & ->).
  rewrite (resolveRoboticsError_offline _ _ _ Hfail) in Hres.
  injection Hres as <-. repeat split.
Qed.

Lemma handleRunDiagnostics_offline_witness :
  let d' := handleRunDiagnostics serviceDown parserUnused (Some intrusionLog) idleConsole in
  isDiagnosing d' = false
  /\ diagResult d' = JObj diagnosticFallback
  /\ highlightedSubsystem d' = Some (JStr "General")
  /\ diagApp d' = diagApp (fst (beginDiagnostics (Some intrusionLog) idleConsole)).
Proof.
  apply (handleRunDiagnostics_offline serviceDown parserUnused (Some intrusionLog) idleConsole);
    reflexivity.
Defined.

(** X20.  A diagnosis whose log is not blank gets stuck on
    "Analyzing..." exactly when the service answers with the JSON value
    [null]: the handler stores the result and then fails on
    [result.subsystem].  Every other answer ends the diagnosis. *)
Theorem handleRunDiagnostics_stuck
    (generateContent : string -> outcome (option string))
    (JSON_parse : string -> outcome json)
    (log : option string) (d : DiagState) :
  allWhiteSpace (diagInput log d) = false ->
  let d' := handleRunDiagnostics generateContent JSON_parse log d in
  (isDiagnosing d' = true
   <-> resolveRoboticsError generateContent JSON_parse (diagInput log d) = Returns JNull)
  /\ Returns (diagResult d')
     = resolveRoboticsError generateContent JSON_parse (diagInput log d).
Proof.
  intros Hsent. cbv zeta.
  destruct (handleRunDiagnostics_sent generateContent JSON_parse log d Hsent)
    as (result & Hres & ->).
  rewrite Hres.
  assert (Hbegin : isDiagnosing (fst (beginDiagnostics log d)) = true).
  { unfold beginDiagnostics. cbv zeta. by rewrite truthyString_trim, Hsent. }
  unfold endDiagnostics.
  destruct result; cbn [getField isDiagnosing diagResult];
    (split; [split; [try discriminate; try done | try discriminate; try done] | reflexivity]).
Qed.

Lemma handleRunDiagnostics_stuck_witness :
  let d' := handleRunDiagnostics answersNull parsesNull (Some intrusionLog) idleConsole in
  (isDiagnosing d' = true
   <-> resolveRoboticsError answersNull parsesNull (diagInput (Some intrusionLog) idleConsole)
       = Returns JNull)
  /\ Returns (diagResult d')
     = resolveRoboticsError answersNull parsesNull (diagInput (Some intrusionLog) idleConsole).
Proof.
  apply (handleRunDiagnostics_stuck answersNull parsesNull (Some intrusionLog) idleConsole).
  reflexivity.
Defined.

(** X21.  "Trace Communication" never leaves an empty log behind: when
    it comes to its end the log is truthy (the [analysis] of the answer,
    or "Analysis failed." when that is missing or falsy), and with the
    service down it is the analysis text of the fixed record.  It gets
    stuck on "Sniffing Packets...", with the log as it was, exactly when
    the answer is [null]. *)
Theorem handleRunNetworkDebug_log
    (generateContent : string -> outcome (option string))
    (JSON_parse : string -> outcome json) (s : DebugState) :
  let request := diagnosticRequest "Latency spikes detected in communication bus." in
  let answer :=
    resolveRoboticsError generateContent JSON_parse
      "Latency spikes detected in communication bus." in
  let s' := handleRunNetworkDebug generateContent JSON_parse s in
  (if isDebugging s'
   then answer = Returns JNull /\ debugLog s' = debugLog s
   else truthy (Some (debugLog s')) = true /\ answer <> Returns JNull)
  /\ match generateContent request with
     | Throws =>
         s' = {| debugLog :=
                   JStr "Critical diagnostic failure. The system could not isolate the source.";
                 isDebugging := false |}
     | Returns _ => True
     end.
Proof.
  cbv zeta. split.
  - unfold handleRunNetworkDebug.
    destruct (resolveRoboticsError_returns generateContent JSON_parse
                "Latency spikes detected in communication bus.") as [result ->].
    cbn [bindOutcome].
    destruct result as [|b|r|str|items|fields]; cbn [getField isDebugging debugLog truthy];
      try (split; [reflexivity | discriminate]).
    + split; reflexivity.
    + destruct (truthy (fields !! "analysis"%string)) eqn:E; (split; [|discriminate]).
      * by destruct (fields !! "analysis"%string).
      * reflexivity.
  - destruct (generateContent _) eqn:Hfail; [exact I|].
    unfold handleRunNetworkDebug.
    by rewrite (resolveRoboticsError_offline _ _ _ Hfail).
Qed.

(** With the service down the panel shows the text of the fixed
    record. *)
Example handleRunNetworkDebug_down :
  handleRunNetworkDebug serviceDown parserUnused (mkDebug (JStr EmptyString) false)
  = {| debugLog :=
         JStr "Critical diagnostic failure. The system could not isolate the source.";
       isDebugging := false |}.
Proof. reflexivity. Qed.

(** ** The textbook *)

Lemma prefix_refl (s : string) : String.prefix s s = true.
Proof.
  induction s as [|c s IH]; [reflexivity|]. cbn.
  by destruct (ascii_dec c c).
Qed.

Lemma includes_refl (s : string) : includes s s = true.
Proof. destruct s; cbn [includes]; by rewrite prefix_refl. Qed.

Lemma includes_empty (s : string) : includes EmptyString s = true.
Proof. by destruct s. Qed.

(** X22.  The textbook search shows every chapter for an empty query,
    shows chapters in the order of the table of contents and never one
    that is not in it, and finds a chapter by its full title whatever the
    case of the letters typed. *)
Theorem filterChapters_search (textbookSearch : string) (chapters : list Chapter) :
  filterChapters EmptyString chapters = chapters
  /\ filterChapters textbookSearch chapters `sublist_of` chapters
  /\ (forall c, In c chapters ->
        toLowerCase textbookSearch = toLowerCase (title c) ->
        In c (filterChapters textbookSearch chapters)).
Proof.
  unfold filterChapters. repeat split.
  - change (toLowerCase EmptyString) with EmptyString.
    induction chapters as [|c cs IH]; [reflexivity|].
    cbn [List.filter]. rewrite includes_empty. cbn [orb]. by rewrite IH.
  - induction chapters as [|c cs IH]; [constructor|].
    cbn [List.filter]. destruct (_ || _); [by apply sublist_skip | by apply sublist_cons].
  - intros c Hin Hq. apply List.filter_In. split; [exact Hin|].
    by rewrite Hq, includes_refl.
Qed.

(** A search for "VISION" finds the second chapter only; a search for
    "robot" finds both. *)
Example filterChapters_vision :
  map chapterId (filterChapters "VISION" sampleChapters) = ["2"%string]
  /\ map chapterId (filterChapters "robot" sampleChapters) = ["1"%string; "2"%string].
Proof. split; reflexivity. Qed.

(** ** The lights of the viewer *)

Lemma sin_range (x : R) : -1 <= sin x <= 1.
Proof. pose proof (SIN_bound x). lra. Qed.

Lemma numLt_Some_false (x y : R) : y <= x -> numLt (Some x) y = false.
Proof. intros H. unfold numLt. destruct (Rlt_dec x y); [lra | reflexivity]. Qed.

(** The overlay entry of a component whose analysis failed. *)
Lemma offline_entry_fields :
  let h := <["isScanning"%string := JBool false]> offlineRecord in
  stateIs h "Failed" = false /\ stateIs h "Throttling" = false
  /\ h !! "healthScore"%string = Some (JNum 50).
Proof. repeat split; reflexivity. Qed.

(** X23.  With the analysis service down, the status light of a
    subsystem whose component is installed turns amber once the overlay
    has settled: the fixed record scores 50, which is below 70 and not
    below 40.  It pulses between 0.5 and 2.5. *)
Theorem ledUpdate_offline_amber
    (generateContent : string -> outcome (option string))
    (JSON_parse : string -> outcome json)
    (toNumberOther : json -> option R)
    (installed : gmap string RoboticComponent) (overlay : gmap string (gmap string json))
    (subsystem : Subsystem) (comp : RoboticComponent) (time roll : R) :
  installed !! compTypeOf subsystem = Some comp ->
  generateContent (contentsOf (telemetryOf comp (compTypeOf subsystem))) = Throws ->
  analyzeAll generateContent JSON_parse installed = Returns overlay ->
  ledUpdate toNumberOther time roll false overlay subsystem
  = {| color := 0xfacc15; emissive := 0xfacc15;
       emissiveIntensity := 1.5 + sin (time * 0.005) |}
  /\ 0.5 <= 1.5 + sin (time * 0.005) <= 2.5.
Proof.
  intros Hcomp Hfail Hall.
  destruct (analyzeAll_overlay generateContent JSON_parse installed)
    as (overlay' & Hrun & Hlook).
  rewrite Hall in Hrun. injection Hrun as <-.
  specialize (Hlook (compTypeOf subsystem)). rewrite Hcomp in Hlook. cbn in Hlook.
  unfold entryOf in Hlook.
  rewrite (analyzeTelemetryHealth_offline generateContent JSON_parse _ Hfail) in Hlook.
  cbn [spreadProps] in Hlook.
  destruct offline_entry_fields as (Hf & Ht & Hs). cbv zeta in Hf, Ht, Hs.
  split; [|pose proof (sin_range (time * 0.005)); lra].
  unfold ledUpdate. cbv zeta. rewrite Hlook, Hf, Ht, Hs. cbn [toNumber orb].
  rewrite numLt_Some_false by lra. rewrite numLt_Some_true by lra. reflexivity.
Qed.

Lemma ledUpdate_offline_amber_witness :
  ledUpdate noOtherNumber 1000 0.5 false
    {[ "Actuator"%string := <["isScanning"%string := JBool false]> offlineRecord ]} Leg_L
  = {| color := 0xfacc15; emissive := 0xfacc15;
       emissiveIntensity := 1.5 + sin (1000 * 0.005) |}
  /\ 0.5 <= 1.5 + sin (1000 * 0.005) <= 2.5.
Proof.
  apply (ledUpdate_offline_amber serviceDown parserUnused noOtherNumber
           {[ "Actuator"%string := torqueMotor ]}
           {[ "Actuator"%string := <["isScanning"%string := JBool false]> offlineRecord ]}
           Leg_L torqueMotor 1000 0.5); reflexivity.
Defined.

(** X24.  A status light is never dark and takes one of three colours:
    whatever the health data, the time and the state of the emergency
    stop, its colour is green, amber or red, its emissive colour is the
    same, and its intensity is between 0.5 and 5. *)
Theorem ledUpdate_visible
    (toNumberOther : json -> option R) (time roll : R) (isEStoppedNow : bool)
    (healthMap : gmap string (gmap string json)) (subsystem : Subsystem) :
  0 <= roll < 1 ->
  let led := ledUpdate toNumberOther time roll isEStoppedNow healthMap subsystem in
  (color led = 0x00ff00%Z \/ color led = 0xfacc15%Z \/ color led = 0xff0000%Z)
  /\ emissive led = color led
  /\ 0.5 <= emissiveIntensity led <= 5
  /\ (isEStoppedNow = true -> color led = 0xff0000%Z).
Proof.
  intros Hroll. cbv zeta. unfold ledUpdate. cbv zeta.
  pose proof (sin_range (time * 0.005)). pose proof (sin_range (time * 0.02)).
  destruct isEStoppedNow.
  { cbn [color emissive emissiveIntensity]. repeat split; try lra; auto. }
  destruct (healthMap !! compTypeOf subsystem) as [h|].
  2: { cbn [color emissive emissiveIntensity]. repeat split; try lra; auto; discriminate. }
  destruct (stateIs h "Failed" || _).
  { cbn [color emissive emissiveIntensity]. repeat split; try lra; auto; discriminate. }
  destruct (stateIs h "Throttling" || _);
    cbn [color emissive emissiveIntensity]; repeat split; try lra; auto; discriminate.
Qed.

Lemma ledUpdate_visible_witness :
  let led := ledUpdate noOtherNumber 1000 0.5 true ∅ Head in
  (color led = 0x00ff00%Z \/ color led = 0xfacc15%Z \/ color led = 0xff0000%Z)
  /\ emissive led = color led
  /\ 0.5 <= emissiveIntensity led <= 5
  /\ (true = true -> color led = 0xff0000%Z).
Proof. apply (ledUpdate_visible noOtherNumber 1000 0.5 true ∅ Head). lra. Defined.


(** ** More on the particle pool *)

Lemma clearLoop_idempotent (n : nat) (lifes : list (option R)) :
  clearLoop n 0 (clearLoop n 0 lifes) = clearLoop n 0 lifes.
Proof.
  apply list_eq. intros j. rewrite !clearLoop_lookup, clearLoop_length.
  destruct (decide (0 <= j < 0 + n /\ j < length lifes)%nat); reflexivity.
Qed.

(** X26.  A frame in which the spatter is not active zeroes the lives
    and nothing else: positions and velocities keep their values, and a
    second such frame changes nothing more. *)
Theorem spatterUpdate_inactive_idempotent
    (fround : R -> R) (random random' : nat -> R)
    (isRunningNow isEStoppedNow hasTool : bool) (density lifeMult : R)
    (spatterRef : option Spatter) :
  isRunningNow && negb isEStoppedNow && hasTool = false ->
  let cleared :=
    spatterUpdate fround random isRunningNow isEStoppedNow hasTool density lifeMult
      spatterRef in
  position <$> cleared = position <$> spatterRef
  /\ aVelocity <$> cleared = aVelocity <$> spatterRef
  /\ spatterUpdate fround random' isRunningNow isEStoppedNow hasTool density lifeMult cleared
     = cleared.
Proof.
  intros Hoff. cbv zeta. unfold spatterUpdate. rewrite Hoff.
  destruct spatterRef as [sp|]; [|repeat split].
  cbn [fmap option_fmap option_map position aVelocity aLife].
  repeat split.
  by rewrite (clearLoop_idempotent MAX_SPARKS (aLife sp)).
Qed.

Lemma spatterUpdate_inactive_idempotent_witness :
  let cleared := spatterUpdate (fun x => x) highRolls true true true 1.0 1.0 (Some sunkenSpark) in
  position <$> cleared = position <$> Some sunkenSpark
  /\ aVelocity <$> cleared = aVelocity <$> Some sunkenSpark
  /\ spatterUpdate (fun x => x) rollsFailThenPass true true true 1.0 1.0 cleared = cleared.
Proof.
  apply (spatterUpdate_inactive_idempotent (fun x => x) highRolls rollsFailThenPass
           true true true 1.0 1.0 (Some sunkenSpark)).
  reflexivity.
Defined.

(** X27.  The emergency stop as a whole: with [isEmergencyStopped] set,
    whatever the other flags, the joints do not move for any number of
    animation frames, every spark of the pool is cleared in one frame of
    the viewer, and the tip of an installed tool glows red. *)
Theorem emergency_stop_halts
    (fround : R -> R) (random : nat -> R) (a : AppState) (density lifeMult time : R)
    (sp : Spatter) (mat : Material) (n : nat) :
  isEmergencyStopped a = true ->
  length (aLife sp) = MAX_SPARKS ->
  physicsFrames n a = a
  /\ (exists sp',
        viewerSpatter fround random a density lifeMult (Some sp) = Some sp'
        /\ aLife sp' = replicate MAX_SPARKS (Some 0))
  /\ (hasToolOf a = true ->
      exists mat',
        viewerTip time a (Some mat) = Some mat'
        /\ emissive mat' = 0xff0000%Z /\ 0.5 <= emissiveIntensity mat').
Proof.
  intros Hstop Hlen. split; [|split].
  - apply physicsFrames_fixed, physicsFrame_frozen. by left.
  - unfold viewerSpatter, spatterUpdate, isRunningProp. rewrite Hstop.
    rewrite andb_false_r. cbn [andb].
    eexists. split; [reflexivity|]. rewrite aLife_mk, <- Hlen. apply clearLoop_all.
  - intros Htool. unfold viewerTip, tipGlow. rewrite Htool, Hstop.
    eexists. split; [reflexivity|]. cbn [emissive emissiveIntensity].
    pose proof (SIN_bound (time * 0.04)). split; [reflexivity | lra].
Qed.

Lemma emergency_stop_halts_witness :
  physicsFrames 60 haltedApp = haltedApp
  /\ (exists sp',
        viewerSpatter (fun x => x) highRolls haltedApp 1.0 1.0 (Some allAlive) = Some sp'
        /\ aLife sp' = replicate MAX_SPARKS (Some 0))
  /\ (hasToolOf haltedApp = true ->
      exists mat',
        viewerTip 1000 haltedApp (Some newTip) = Some mat'
        /\ emissive mat' = 0xff0000%Z /\ 0.5 <= emissiveIntensity mat').
Proof.
  apply (emergency_stop_halts (fun x => x) highRolls haltedApp 1.0 1.0 1000 allAlive newTip 60).
  - reflexivity.
  - apply length_replicate.
Defined.

Section MoreSpatterFacts.
Variable fround : R -> R.
Variable random : nat -> R.

Local Abbreviation step := (sparkStep fround random).
Local Abbreviation loop := (sparkLoop fround random).

Lemma sparkStep_positions_length (rate : Z) (lm : R) (i : nat) (s : SparkLoop) :
  length (positions (step rate lm i s)) = length (positions s).
Proof.
  unfold sparkStep, spawnSpark, advanceSpark, storeF32.
  repeat match goal with
         | |- context [if ?b then _ else _] => destruct b
         end;
    cbn [positions]; rewrite ?length_insert; reflexivity.
Qed.

Lemma sparkLoop_positions_length (rate : Z) (lm : R) (n i : nat) (s : SparkLoop) :
  length (positions (loop rate lm n i s)) = length (positions s).
Proof.
  revert i s. induction n as [|n IH]; intros i s; [reflexivity|].
  cbn [sparkLoop]. by rewrite IH, sparkStep_positions_length.
Qed.

Lemma sparkStep_vels_length (rate : Z) (lm : R) (i : nat) (s : SparkLoop) :
  length (vels (step rate lm i s)) = length (vels s).
Proof.
  unfold sparkStep, spawnSpark, advanceSpark, storeF32.
  repeat match goal with
         | |- context [if ?b then _ else _] => destruct b
         end;
    cbn [vels]; rewrite ?length_insert; reflexivity.
Qed.

Lemma sparkLoop_vels_length (rate : Z) (lm : R) (n i : nat) (s : SparkLoop) :
  length (vels (loop rate lm n i s)) = length (vels s).
Proof.
  revert i s. induction n as [|n IH]; intros i s; [reflexivity|].
  cbn [sparkLoop]. by rewrite IH, sparkStep_vels_length.
Qed.

Lemma sparkStep_vels_ne (rate : Z) (lm : R) (i k : nat) (s : SparkLoop) :
  (k < i * 3 \/ i * 3 + 3 <= k)%nat ->
  vels (step rate lm i s) !! k = vels s !! k.
Proof.
  intros Hk. unfold sparkStep, spawnSpark, advanceSpark, storeF32.
  repeat match goal with
         | |- context [if ?b then _ else _] => destruct b
         end;
    cbn [vels]; rewrite ?list_lookup_insert_ne by lia; reflexivity.
Qed.

Lemma sparkLoop_vels_ne (rate : Z) (lm : R) (n i k : nat) (s : SparkLoop) :
  (k < i * 3 \/ (i + n) * 3 <= k)%nat ->
  vels (loop rate lm n i s) !! k = vels s !! k.
Proof.
  revert i s. induction n as [|n IH]; intros i s Hk; [reflexivity|].
  cbn [sparkLoop]. rewrite IH by lia. apply sparkStep_vels_ne. lia.
Qed.

(** A slot that is free before its iteration and alive after it went
    through the activation: the roll was made and succeeded. *)
Lemma sparkStep_activation (rate : Z) (lm : R) (i : nat) (s : SparkLoop) :
  numLe (readF32 (lifes s) i) 0 = true ->
  numLe (readF32 (lifes (step rate lm i s)) i) 0 = false ->
  step rate lm i s = spawnSpark fround random i s
  /\ random (rng s) < 0.3 /\ (spawned s < rate)%Z /\ (i < length (lifes s))%nat.
Proof.
  intros Hfree Halive. unfold sparkStep in *. rewrite Hfree in *.
  destruct (spawned s <? rate)%Z eqn:Hlt; [|congruence].
  destruct (Rlt_dec (random (rng s)) 0.3) as [Hroll|]; [|cbn [lifes] in Halive; congruence].
  apply Z.ltb_lt in Hlt. repeat split; try done.
  unfold numLe in Hfree. destruct (readF32 (lifes s) i) as [x|] eqn:E; [|discriminate].
  by apply readF32_Some in E as [_ ?].
Qed.

(** What the loop leaves in a slot it activated. *)
Lemma sparkLoop_activation (rate : Z) (lm : R) (n i : nat) (s : SparkLoop) :
  (i < n)%nat ->
  length (positions s) = (length (lifes s) * 3)%nat ->
  length (vels s) = (length (lifes s) * 3)%nat ->
  numLe (readF32 (lifes s) i) 0 = true ->
  numLe (readF32 (lifes (loop rate lm n 0 s)) i) 0 = false ->
  let s' := loop rate lm n 0 s in
  exists k : nat,
    random k < 0.3
    /\ lifes s' !! i = Some (Some 1.0)
    /\ positions s' !! (i * 3)%nat = Some (Some 0)
    /\ positions s' !! (i * 3 + 1)%nat = Some (Some 0)
    /\ positions s' !! (i * 3 + 2)%nat = Some (Some 0.5)
    /\ let angle := random (k + 1)%nat * PI * 2 in
       let spread := 0.05 + random (k + 2)%nat * 0.2 in
       vels s' !! (i * 3)%nat = Some (Some (fround (cos angle * spread)))
       /\ vels s' !! (i * 3 + 1)%nat = Some (Some (fround (sin angle * spread)))
       /\ vels s' !! (i * 3 + 2)%nat
          = Some (Some (fround (0.1 + random (k + 3)%nat * 0.3))).
Proof.
  intros Hin Hpos Hvel Hfree Halive. cbv zeta.
  replace n with (i + S (n - S i))%nat in * by lia.
  rewrite sparkLoop_app in *. cbn [Nat.add sparkLoop] in *.
  set (s1 := loop rate lm i 0 s) in *.
  assert (Hfree1 : numLe (readF32 (lifes s1) i) 0 = true).
  { unfold readF32 in *. subst s1. by rewrite sparkLoop_lifes_ne by lia. }
  assert (Halive1 : numLe (readF32 (lifes (step rate lm i s1)) i) 0 = false).
  { unfold readF32 in *. by rewrite sparkLoop_lifes_ne in Halive by lia. }
  destruct (sparkStep_activation rate lm i s1 Hfree1 Halive1) as (Hstep & Hroll & _ & Hi).
  assert (Hlen1 : length (lifes s1) = length (lifes s))
    by (subst s1; apply sparkLoop_lifes_length).
  assert (Hpos1 : length (positions s1) = length (positions s))
    by (subst s1; apply sparkLoop_positions_length).
  assert (Hvel1 : length (vels s1) = length (vels s))
    by (subst s1; apply sparkLoop_vels_length).
  exists (rng s1). split; [exact Hroll|].
  rewrite sparkLoop_lifes_ne, !sparkLoop_positions_ne, !sparkLoop_vels_ne by lia.
  rewrite Hstep. unfold spawnSpark, storeF32. cbn [lifes positions vels].
  repeat split.
  - by rewrite list_lookup_insert_eq.
  - rewrite !list_lookup_insert_ne by lia. apply list_lookup_insert_eq. lia.
  - rewrite list_lookup_insert_ne by lia. apply list_lookup_insert_eq.
    rewrite length_insert. lia.
  - apply list_lookup_insert_eq. rewrite !length_insert. lia.
  - rewrite !list_lookup_insert_ne by lia. apply list_lookup_insert_eq. lia.
  - rewrite list_lookup_insert_ne by lia. apply list_lookup_insert_eq.
    rewrite length_insert. lia.
  - apply list_lookup_insert_eq. rewrite !length_insert. lia.
Qed.

(** A budget of zero or less: the loop activates nothing. *)
Lemma sparkLoop_no_budget (rate : Z) (lm : R) (n : nat) (s : SparkLoop) :
  (rate <= 0)%Z -> spawned s = 0%Z ->
  activatedBelow n (lifes s) (lifes (loop rate lm n 0 s)) = []
  /\ spawned (loop rate lm n 0 s) = 0%Z.
Proof.
  intros Hrate Hzero.
  pose proof (sparkLoop_activated fround random rate lm n s) as Hact.
  pose proof (sparkLoop_spawned_bounds fround random rate lm n 0 s) as Hb.
  rewrite Hzero in *.
  assert (Hlen : length (activatedBelow n (lifes s) (lifes (loop rate lm n 0 s))) = 0%nat)
    by lia.
  split; [by apply nil_length_inv | lia].
Qed.

(** The slots alive after are alive before or activated. *)
Lemma aliveBelow_growth (n : nat) (before after : list (option R)) :
  (length (aliveBelow n after)
   <= length (aliveBelow n before) + length (activatedBelow n before after))%nat.
Proof.
  unfold aliveBelow, activatedBelow.
  induction (seq 0 n) as [|i l IH]; [reflexivity|].
  cbn [List.filter].
  destruct (numLe (readF32 before i) 0), (numLe (readF32 after i) 0);
    cbn [negb andb length]; lia.
Qed.

Lemma sparkLoop_alive_growth (rate : Z) (lm : R) (n : nat) (s : SparkLoop) :
  spawned s = 0%Z ->
  (Z.of_nat (length (aliveBelow n (lifes (loop rate lm n 0 s))))
   <= Z.of_nat (length (aliveBelow n (lifes s))) + Z.max 0 rate)%Z.
Proof.
  intros Hzero.
  pose proof (sparkLoop_activated fround random rate lm n s) as Hact.
  pose proof (sparkLoop_spawned_bounds fround random rate lm n 0 s) as Hb.
  pose proof (aliveBelow_growth n (lifes s) (lifes (loop rate lm n 0 s))) as Hg.
  rewrite Hzero in *. lia.
Qed.
End MoreSpatterFacts.

Lemma activatedBelow_In (n : nat) (before after : list (option R)) (i : nat) :
  In i (activatedBelow n before after)
  <-> (i < n)%nat /\ numLe (readF32 before i) 0 = true
      /\ numLe (readF32 after i) 0 = false.
Proof.
  unfold activatedBelow. rewrite List.filter_In, in_seq, andb_true_iff, negb_true_iff.
  intuition lia.
Qed.

Lemma alive_unfold (lifes : list (option R)) : alive lifes = aliveBelow MAX_SPARKS lifes.
Proof. reflexivity. Qed.

(** X28.  With the density slider below 0.05 the budget
    [floor(density * 20)] is zero (or negative): an active frame activates
    no spark at all. *)
Theorem spatterTick_no_budget
    (fround : R -> R) (random : nat -> R) (density lifeMult : R) (sp : Spatter) :
  density < 0.05 ->
  newlyActive (aLife sp) (lifes (spatterTick fround random density lifeMult sp)) = []
  /\ spawned (spatterTick fround random density lifeMult sp) = 0%Z.
Proof.
  intros Hlow.
  assert (Hrate : (Zfloor (density * 20) <= 0)%Z).
  { pose proof (Zfloor_bound (density * 20)) as Hb.
    apply Z.lt_succ_r. change (Z.succ 0) with 1%Z. apply lt_IZR. lra. }
  rewrite spatterTick_unfold.
  rewrite (newlyActive_unfold (aLife sp)
             (lifes (sparkLoop fround random (Zfloor (density * 20)) lifeMult MAX_SPARKS 0
                       (loopStart sp)))).
  exact (sparkLoop_no_budget fround random (Zfloor (density * 20)) lifeMult MAX_SPARKS
           (loopStart sp) Hrate eq_refl).
Qed.

Lemma spatterTick_no_budget_witness :
  newlyActive (aLife newSpatter) (lifes (spatterTick (fun x => x) rollsFailThenPass 0 1.0 newSpatter))
  = []
  /\ spawned (spatterTick (fun x => x) rollsFailThenPass 0 1.0 newSpatter) = 0%Z.
Proof.
  apply (spatterTick_no_budget (fun x => x) rollsFailThenPass 0 1.0 newSpatter). lra.
Defined.

(** X29.  Every spark activated in a frame starts at the tool tip
    [(0, 0, 0.5)] with life 1, after a roll below 0.3, and takes its
    velocity from the three random numbers that follow the roll: the
    horizontal direction from the first, the horizontal speed from the
    second, the speed along the gun from the third. *)
Theorem spatterTick_activation
    (fround : R -> R) (random : nat -> R) (density lifeMult : R) (sp : Spatter) (i : nat) :
  length (position sp) = (length (aLife sp) * 3)%nat ->
  length (aVelocity sp) = (length (aLife sp) * 3)%nat ->
  In i (newlyActive (aLife sp) (lifes (spatterTick fround random density lifeMult sp))) ->
  let s' := spatterTick fround random density lifeMult sp in
  exists k : nat,
    random k < 0.3
    /\ lifes s' !! i = Some (Some 1.0)
    /\ positions s' !! (i * 3)%nat = Some (Some 0)
    /\ positions s' !! (i * 3 + 1)%nat = Some (Some 0)
    /\ positions s' !! (i * 3 + 2)%nat = Some (Some 0.5)
    /\ let angle := random (k + 1)%nat * PI * 2 in
       let spread := 0.05 + random (k + 2)%nat * 0.2 in
       vels s' !! (i * 3)%nat = Some (Some (fround (cos angle * spread)))
       /\ vels s' !! (i * 3 + 1)%nat = Some (Some (fround (sin angle * spread)))
       /\ vels s' !! (i * 3 + 2)%nat
          = Some (Some (fround (0.1 + random (k + 3)%nat * 0.3))).
Proof.
  intros Hpos Hvel Hin. cbv zeta.
  rewrite spatterTick_unfold in *.
  rewrite (newlyActive_unfold (aLife sp)
             (lifes (sparkLoop fround random (Zfloor (density * 20)) lifeMult MAX_SPARKS 0
                       (loopStart sp)))) in Hin.
  apply activatedBelow_In in Hin as (Hi & Hfree & Halive).
  exact (sparkLoop_activation fround random (Zfloor (density * 20)) lifeMult MAX_SPARKS i
           (loopStart sp) Hi Hpos Hvel Hfree Halive).
Qed.

(** With rolls of 0.1 and full density, the first slot of a fresh pool
    is activated. *)
Lemma first_slot_activated :
  In 0%nat (newlyActive (aLife newSpatter)
              (lifes (spatterTick (fun x => x) lowRolls 1.0 1.0 newSpatter))).
Proof.
  rewrite spatterTick_unfold, spawnRate_full_density.
  rewrite (newlyActive_unfold (aLife newSpatter)
             (lifes (sparkLoop (fun x => x) lowRolls 20 1.0 MAX_SPARKS 0
                       (loopStart newSpatter)))).
  apply activatedBelow_In.
  pose proof (newSpatter_free 0 1 ltac:(unfold MAX_SPARKS; lia) 0%nat ltac:(lia)) as Hfree.
  split; [unfold MAX_SPARKS; lia|]. split; [exact Hfree|].
  rewrite MAX_SPARKS_split.
  rewrite (sparkLoop_app (fun x => x) lowRolls 20 1.0 1 799 0 (loopStart newSpatter)).
  unfold readF32 at 1. rewrite sparkLoop_lifes_ne by lia.
  cbn [sparkLoop]. unfold sparkStep. rewrite Hfree.
  change (spawned (loopStart newSpatter) <? 20)%Z with true.
  destruct (Rlt_dec (lowRolls (rng (loopStart newSpatter))) 0.3) as [_|Hroll].
  - unfold spawnSpark. cbn [lifes].
    rewrite list_lookup_insert_eq.
    + cbn [default]. apply numLe_Some_false. lra.
    + unfold loopStart, newSpatter. cbn [lifes aLife]. rewrite length_replicate.
      unfold MAX_SPARKS. lia.
  - exfalso. apply Hroll. unfold lowRolls. lra.
Qed.

Lemma newSpatter_lengths :
  length (position newSpatter) = (length (aLife newSpatter) * 3)%nat
  /\ length (aVelocity newSpatter) = (length (aLife newSpatter) * 3)%nat.
Proof. unfold newSpatter. cbn [position aLife aVelocity]. by rewrite !length_replicate. Qed.

Lemma spatterTick_activation_witness :
  let s' := spatterTick (fun x => x) lowRolls 1.0 1.0 newSpatter in
  exists k : nat,
    lowRolls k < 0.3
    /\ lifes s' !! 0%nat = Some (Some 1.0)
    /\ positions s' !! (0 * 3)%nat = Some (Some 0)
    /\ positions s' !! (0 * 3 + 1)%nat = Some (Some 0)
    /\ positions s' !! (0 * 3 + 2)%nat = Some (Some 0.5)
    /\ let angle := lowRolls (k + 1)%nat * PI * 2 in
       let spread := 0.05 + lowRolls (k + 2)%nat * 0.2 in
       vels s' !! (0 * 3)%nat = Some (Some (cos angle * spread))
       /\ vels s' !! (0 * 3 + 1)%nat = Some (Some (sin angle * spread))
       /\ vels s' !! (0 * 3 + 2)%nat = Some (Some (0.1 + lowRolls (k + 3)%nat * 0.3)).
Proof.
  apply (spatterTick_activation (fun x => x) lowRolls 1.0 1.0 newSpatter 0).
  - exact (proj1 newSpatter_lengths).
  - exact (proj2 newSpatter_lengths).
  - exact first_slot_activated.
Defined.

(** X30.  A frame adds at most [floor(density * 20)] live sparks to the
    pool (none when that is negative): the sparks alive after it are at
    most those alive before it plus the budget. *)
Theorem spatterTick_alive_growth
    (fround : R -> R) (random : nat -> R) (density lifeMult : R) (sp : Spatter) :
  (Z.of_nat (length (alive (lifes (spatterTick fround random density lifeMult sp))))
   <= Z.of_nat (length (alive (aLife sp))) + Z.max 0 (Zfloor (density * 20)))%Z.
Proof.
  rewrite spatterTick_unfold.
  rewrite (alive_unfold (aLife sp)).
  rewrite (alive_unfold
             (lifes (sparkLoop fround random (Zfloor (density * 20)) lifeMult MAX_SPARKS 0
                       (loopStart sp)))).
  exact (sparkLoop_alive_growth fround random (Zfloor (density * 20)) lifeMult MAX_SPARKS
           (loopStart sp) eq_refl).
Qed.
